(** * Writing3D: timelines, links and object-position triggers

    A shallow embedding of [pyw3d/timeline.py], [pyw3d/objects_w3dlink.py]
    and [pyw3d/activators/triggers/object_triggers.py], with the
    properties of their persistence and of the generated detection
    logic. *)

From Stdlib Require Import ZArith QArith Bool List Ascii String.
From Stdlib Require Import Sorted Permutation Lia.
From stdpp Require Import base option gmap strings list pretty.

Local Open Scope Z_scope.

(** ** Python values, exceptions and results *)

Module Py.

(** The exception classes the modelled code raises or handles. *)
Inductive exn : Type :=
| SyntaxError
| TypeError
| NameError
| IndexError
| KeyError
| ValueError
| AttributeError
| BadW3DXML
| EBKAC
| ConsistencyError
| InvalidArgument.

(** A call either returns a value or raises. *)
Inductive result (A : Type) : Type :=
| Ok (a : A)
| Raise (e : exn).
Arguments Ok {A} a.
Arguments Raise {A} e.

Definition bind {A B} (r : result A) (k : A -> result B) : result B :=
  match r with
  | Ok a => k a
  | Raise e => Raise e
  end.

Definition is_ok {A} (r : result A) : bool :=
  match r with Ok _ => true | Raise _ => false end.

(** [for x in xs: acc = f(acc, x)], stopping at the first exception. *)
Fixpoint foldM {A B} (f : A -> B -> result A) (acc : A) (xs : list B)
  : result A :=
  match xs with
  | [] => Ok acc
  | x :: xs' => bind (f acc x) (fun acc' => foldM f acc' xs')
  end.

(** [[f(x) for x in xs]], stopping at the first exception. *)
Fixpoint mapM {A B} (f : A -> result B) (xs : list A) : result (list B) :=
  match xs with
  | [] => Ok []
  | x :: xs' =>
      bind (f x) (fun y => bind (mapM f xs') (fun ys => Ok (y :: ys)))
  end.

(** The values held by game properties. *)
Inductive value : Type :=
| VBool (b : bool)
| VInt (n : Z)
| VStr (s : string)
| VNone.

(** Truth value of an object in a condition. *)
Definition truthy (v : value) : bool :=
  match v with
  | VBool b => b
  | VInt n => negb (n =? 0)
  | VStr s => negb (String.eqb s "")
  | VNone => false
  end.

(** [v == 'text'] for a string literal on the right. *)
Definition eq_str (v : value) (s : string) : bool :=
  match v with
  | VStr s' => String.eqb s' s
  | _ => false
  end.

(** [d[key]] on a mapping: [KeyError] when the key is absent. *)
Definition getitem {V} (d : gmap string V) (key : string) : result V :=
  match d !! key with
  | Some v => Ok v
  | None => Raise KeyError
  end.

(** [seq[i]] on a sequence: a negative index counts from the end,
    anything out of range raises [IndexError]. *)
Definition index {A} (l : list A) (i : Z) : result A :=
  let n := Z.of_nat (length l) in
  let j := if i <? 0 then i + n else i in
  if (j <? 0) || (n <=? j) then Raise IndexError
  else match l !! Z.to_nat j with
       | Some x => Ok x
       | None => Raise IndexError
       end.

(** Comparison of two finite floats, as rationals. *)
Definition Qlt_bool (x y : Q) : bool := negb (Qle_bool y x).

(** [min((a, b))] and [max((a, b))]: the first of equal items wins. *)
Definition min2 (c : Q * Q) : Q :=
  if Qlt_bool (snd c) (fst c) then snd c else fst c.
Definition max2 (c : Q * Q) : Q :=
  if Qlt_bool (fst c) (snd c) then snd c else fst c.

(** A float as [float(s)] returns it: a finite value, given by the
    rational that it is, an infinity, or nan. *)
Inductive pyfloat : Type :=
| Finite (q : Q)
| Infinity (negative : bool)
| NaN.

Definition is_nan (x : pyfloat) : bool :=
  match x with
  | NaN => true
  | _ => false
  end.

(** [x < y], [x == y] and [x <= y] on floats: every comparison with
    nan is false. *)
Definition float_lt (x y : pyfloat) : bool :=
  match x, y with
  | NaN, _ | _, NaN => false
  | Finite a, Finite b => Qlt_bool a b
  | Finite _, Infinity negative => negb negative
  | Infinity negative, Finite _ => negative
  | Infinity n1, Infinity n2 => n1 && negb n2
  end.

Definition float_eq (x y : pyfloat) : bool :=
  match x, y with
  | Finite a, Finite b => Qeq_bool a b
  | Infinity n1, Infinity n2 => Bool.eqb n1 n2
  | _, _ => false
  end.

Definition float_le (x y : pyfloat) : bool := float_lt x y || float_eq x y.

(** [self.x] for an attribute that may not have been set. *)
Definition getattr {A} (a : option A) : result A :=
  match a with
  | Some x => Ok x
  | None => Raise AttributeError
  end.

(** [try: ... except AttributeError: raise EBKAC(...)] *)
Definition except_AttributeError {A} (r : result A) : result A :=
  match r with
  | Raise AttributeError => Raise EBKAC
  | _ => r
  end.

End Py.

Import Py.

Declare Scope py_scope.
Delimit Scope py_scope with py.
Notation "'let*' x ':=' c1 'in' c2" := (Py.bind c1 (fun x => c2))
  (at level 10, x name, c1 at level 100, c2 at level 200) : py_scope.
Local Open Scope py_scope.

(** ** Object-position triggers ([activators/triggers/object_triggers.py]) *)

Module ObjectTrigger.

(** The [box] dictionary of a trigger: two corners and a direction. *)
Record Box : Type := {
  corner1 : list Q;
  corner2 : list Q;
  direction : string
}.

(** [objects_string]: "either a Python-formatted list of names of
    Blender objects or a single valid group name". *)
Inductive ObjectsString : Type :=
| ObjectNames (names : list string)
| GroupName (group : string).

(** The attributes [__init__] stores. *)
Record BlenderObjectPositionTrigger : Type := {
  name : string;
  box : Box;
  objects_string : ObjectsString;
  detect_any : bool
}.

(** The interpreter that formats the text and loads the module that
    holds it.  [zip] returns a list on Python 2 and an iterator on
    Python 3, the interpreter of [bpy]. *)
Inductive Interpreter : Type :=
| Python2
| Python3.

(** *** The generated text *)

Definition nl : string := String (Ascii.ascii_of_nat 10) EmptyString.

(** ["{}".format(b)] for a boolean. *)
Definition format_bool (b : bool) : string :=
  if b then "True" else "False".

(** ["{}".format(zip(...))]: the text of a list of pairs where [zip]
    returns a list, and the text of an iterator object, which is no
    expression of the language, where it returns an iterator. *)
Definition format_zip (interp : Interpreter) (pairs_repr address : string)
  : string :=
  match interp with
  | Python2 => pairs_repr
  | Python3 => "<zip object at 0x" +:+ address +:+ ">"
  end.

(** ["{}".format(self.objects_string)] *)
Definition format_objects (names_repr : string) (objects : ObjectsString)
  : string :=
  match objects with
  | ObjectNames _ => names_repr
  | GroupName group => group
  end.

(** [generate_detection_logic]: the lines of [detect_event], joined by
    newlines.  [corners_repr] and [objects_repr] are the texts that
    [format] produces for [zip(corner1, corner2)] and for
    [objects_string], see [format_zip] and [format_objects]. *)
Definition generate_detection_logic
  (corners_repr objects_repr : string) (self : BlenderObjectPositionTrigger)
  : string :=
  String.concat nl [
    nl +:+ "def detect_event(cont):";
    "    scene = bge.logic.getCurrentScene()";
    "    own = cont.owner";
    "    corners = " +:+ corners_repr;
    "    all_objects = " +:+ objects_repr;
    "    all_objects = [" +:+
      "scene.objects[object_name] for object_name in all_objects]";
    "    in_region = " +:+ format_bool (negb (detect_any self));
    "    for object_ in all_objects:";
    "        position = object_.position";
    "        in_region = (in_region " +:+
      (if negb (detect_any self) then "and" else "or");
    "            " +:+
      (if String.eqb (direction (box self)) "Inside" then "not " else "") +:+
      "(position[i] < min(corners[i]) or";
    "               position[i] > max(corners[i])))";
    "    if (";
    "            in_region and own['enabled'] and";
    "            own['status'] == 'Stop'):";
    "        own['status'] = 'Start'"
  ].

(** *** What the generated function computes

    [detect_event] reads the name [i] without ever assigning it, so its
    value is the module-level binding of [i], if there is one. *)

Section DetectEvent.

Variable global_i : option Z.

Definition lookup_i : result Z :=
  match global_i with
  | Some i => Ok i
  | None => Raise NameError
  end.

(** [position[i] < min(corners[i]) or position[i] > max(corners[i])] *)
Definition outside_test (corners : list (Q * Q)) (position : list Q)
  : result bool :=
  let* i := lookup_i in
  let* p := Py.index position i in
  let* c := Py.index corners i in
  if Qlt_bool p (min2 c) then Ok true
  else
    let* p' := Py.index position i in
    let* c' := Py.index corners i in
    Ok (Qlt_bool (max2 c') p').

(** The test with the prefix chosen by [box["direction"] == "Inside"]. *)
Definition region_test (dir : string) (corners : list (Q * Q))
  (position : list Q) : result bool :=
  let* out := outside_test corners position in
  Ok (if String.eqb dir "Inside" then negb out else out).

(** One turn of the loop: [in_region = (in_region or/and test)], the
    right operand being evaluated only when the left one does not
    decide. *)
Definition loop_body (any : bool) (dir : string) (corners : list (Q * Q))
  (in_region : bool) (position : list Q) : result bool :=
  if any then
    if in_region then Ok true else region_test dir corners position
  else
    if in_region then region_test dir corners position else Ok false.

(** What the text is generated and loaded in. *)
Variable interp : Interpreter.

(** [self["box"]]: item access on the trigger is the base class's,
    and [BlenderTrigger] is not among the sources; a class without it
    raises [TypeError]. *)
Variable getitem_box : BlenderObjectPositionTrigger -> result Box.

(** The list of names that the module binds a group's name to, if it
    binds the name at all: the generated text does not. *)
Variable global_group : string -> option (list string).

(** The value of [corners] in a run.  The line is written from
    [zip(self["box"]["corner1"], self["box"]["corner2"])] when the
    text is generated; on Python 3 the line is [corners = <zip object
    at 0x...>] and the module that holds it is refused with
    [SyntaxError], so that no run of [detect_event] begins. *)
Definition corners_of (self : BlenderObjectPositionTrigger)
  : result (list (Q * Q)) :=
  let* b := getitem_box self in
  match interp with
  | Python2 => Ok (combine (corner1 b) (corner2 b))
  | Python3 => Raise SyntaxError
  end.

(** The value of the first [all_objects]: the list that the text
    spells out, or what the group's name is bound to. *)
Definition object_names (self : BlenderObjectPositionTrigger)
  : result (list string) :=
  match objects_string self with
  | ObjectNames names => Ok names
  | GroupName group =>
      match global_group group with
      | Some names => Ok names
      | None => Raise NameError
      end
  end.

(** The value of [in_region] after the loop.  [scene] gives the
    position of every object of the scene by name. *)
Definition in_region_of (self : BlenderObjectPositionTrigger)
  (scene : gmap string (list Q)) : result bool :=
  let* corners := corners_of self in
  let* names := object_names self in
  let* all_objects := mapM (Py.getitem scene) names in
  foldM (loop_body (detect_any self) (direction (box self)) corners)
        (negb (detect_any self)) all_objects.

(** One activation of the controller whose module is [detect_event]:
    the owner's properties afterwards, and the outcome.  The owner is
    changed by the last statement alone, so an exception leaves it as
    it was. *)
Definition detect_event (self : BlenderObjectPositionTrigger)
  (scene : gmap string (list Q)) (own : gmap string value)
  : gmap string value * result unit :=
  match in_region_of self scene with
  | Raise e => (own, Raise e)
  | Ok false => (own, Ok tt)
  | Ok true =>
      match Py.getitem own "enabled" with
      | Raise e => (own, Raise e)
      | Ok enabled =>
          if truthy enabled then
            match Py.getitem own "status" with
            | Raise e => (own, Raise e)
            | Ok status =>
                if eq_str status "Stop"
                then (<["status" := VStr "Start"]> own, Ok tt)
                else (own, Ok tt)
            end
          else (own, Ok tt)
      end
  end.

End DetectEvent.

(** *** The state holder

    Modelled from the spec: the state holder of a trigger is made by
    [BlenderTrigger], which is not among the sources.  "A Trigger's
    state holder has exactly two logical fields: enabled (bool) and
    status (Stop | Start)". *)

Inductive Status : Type :=
| Stop
| Start.

Record StateHolder : Type := {
  holder_enabled : bool;
  holder_status : Status
}.

Definition status_text (s : Status) : string :=
  match s with
  | Stop => "Stop"
  | Start => "Start"
  end.

(** The game properties of an owner that holds the state [h]. *)
Definition properties (h : StateHolder) : gmap string value :=
  <["enabled" := VBool (holder_enabled h)]>
    (<["status" := VStr (status_text (holder_status h))]> ∅).

(** *** The containment predicate, in the words of the design *)

Definition spec_lo (a b : Q) : Q := if Qle_bool a b then a else b.
Definition spec_hi (a b : Q) : Q := if Qle_bool a b then b else a.

(** [outside(o)]: some axis has [p_i < lo_i] or [p_i > hi_i]. *)
Definition spec_outside (b : Box) (p : list Q) : bool :=
  existsb (fun '(pi, (ai, bi)) =>
             Qlt_bool pi (spec_lo ai bi) || Qlt_bool (spec_hi ai bi) pi)
          (combine p (combine (corner1 b) (corner2 b))).

(** [contained(o)], by mode. *)
Definition spec_contained (b : Box) (p : list Q) : bool :=
  if String.eqb (direction b) "Inside"
  then negb (spec_outside b p) else spec_outside b p.

(** The aggregate over the tracked positions. *)
Definition spec_detect (any : bool) (b : Box) (ps : list (list Q)) : bool :=
  if any then existsb (spec_contained b) ps
  else forallb (spec_contained b) ps.

(** *** Linking the detection bricks *)

Record Sensor : Type := {
  sensor_name : string;
  use_pulse_true_level : bool;
  tick_skip : Z;
  property : string;
  sensor_value : string
}.

Record Controller : Type := {
  controller_name : string;
  mode : string;
  module : string
}.

(** The two attributes that the [create_...] methods set on the
    trigger; an attribute that was never set is [None]. *)
Record Bricks : Type := {
  enable_sensor : option Sensor;
  detect_controller : option Controller
}.

Definition no_bricks : Bricks :=
  {| enable_sensor := None; detect_controller := None |}.

Definition create_enabled_sensor (self_name : string) (b : Bricks) : Bricks :=
  {| enable_sensor :=
       Some {| sensor_name := "enabled_sensor";
               use_pulse_true_level := true;
               tick_skip := 0;
               property := "enabled";
               sensor_value := "True" |};
     detect_controller := detect_controller b |}.

Definition create_detection_controller (self_name : string) (b : Bricks)
  : Bricks :=
  {| enable_sensor := enable_sensor b;
     detect_controller :=
       Some {| controller_name := "detect";
               mode := "MODULE";
               module := self_name +:+ ".detect_event" |} |}.

Section LinkDetection.

(** The host's [controller.link(sensor=...)]. *)
Variable host_link : Controller -> Sensor -> result unit.

Definition link_detection_bricks (b : Bricks) : result Controller :=
  let* _ := except_AttributeError
    (let* c := getattr (detect_controller b) in
     let* s := getattr (enable_sensor b) in
     host_link c s) in
  getattr (detect_controller b).

End LinkDetection.

End ObjectTrigger.

(** ** Documents ([xml.etree.ElementTree]) *)

Module Xml.

(** An element: tag, attribute dictionary, text and children. *)
#[warnings="-register-all"]
Inductive Element : Type :=
| Elem (tag : string) (attrib : gmap string string)
       (text : option string) (children : list Element).

Definition tag (e : Element) : string :=
  match e with Elem t _ _ _ => t end.
Definition attrib (e : Element) : gmap string string :=
  match e with Elem _ a _ _ => a end.
Definition text (e : Element) : option string :=
  match e with Elem _ _ x _ => x end.
Definition children (e : Element) : list Element :=
  match e with Elem _ _ _ cs => cs end.

Definition has_tag (t : string) (e : Element) : bool := String.eqb (tag e) t.

(** [e.find(t)]: the first child with tag [t]. *)
Definition find (t : string) (e : Element) : option Element :=
  List.find (has_tag t) (children e).

(** [e.findall(t)]: the children with tag [t], in document order. *)
Definition findall (t : string) (e : Element) : list Element :=
  List.filter (has_tag t) (children e).

(** [ET.SubElement(parent, tag, attrib)] as the node it creates. *)
Definition node (t : string) (a : gmap string string) (cs : list Element)
  : Element := Elem t a None cs.

Definition text_node (t : string) (x : string) : Element :=
  Elem t ∅ (Some x) [].

End Xml.

(** ** Collaborators

    The modules below call code that lies outside them: the helpers of
    [xml_tools], the actions' own persistence, the name validator, the
    built-in conversions and the Blender activators.  They are taken as
    interfaces, so that every statement holds whatever they do. *)

(** [pyw3d.xml_tools]. *)
Class XmlTools : Type := {
  (** [text2bool(text)], the text being possibly [None] *)
  text2bool : option string -> result bool;
  bool2text : bool -> string;
  (** [find_xml_text(node, tag)] *)
  find_xml_text : Xml.Element -> string -> result (option string);
  (** [text2tuple(text, evaluator=int)] *)
  text2tuple : option string -> result (list Z)
}.

(** [W3DAction.fromXML] and [action.toXML], the latter given by the
    element it appends to its parent. *)
Class ActionCodec : Type := {
  W3DAction : Type;
  action_fromXML : Xml.Element -> result W3DAction;
  action_toXML : W3DAction -> Xml.Element
}.

(** The built-in conversions: [int(s)] and [float(s)] ([None] when they
    raise [ValueError]) and [str(x)] of a time.  [float] also reads
    the texts of the infinities and of nan. *)
Class Builtins : Type := {
  py_int : string -> option Z;
  py_float : string -> option pyfloat;
  py_str_float : pyfloat -> string
}.

(** Assigning a timeline's name: the value stored, or the exception of
    the [ValidPyString] validator. *)
Class NameValidator : Type := {
  setitem_name : string -> result string
}.

(** The Blender activators of [pyw3d.activators]. *)
Class Activators `{ActionCodec} : Type := {
  Activator : Type;
  BlenderTimeline :
    string -> list (pyfloat * W3DAction) -> bool -> result Activator;
  BlenderClickTrigger :
    string -> list (Z * list W3DAction) -> bool -> bool ->
    list Z -> list Z -> Z -> result Activator;
  create_blender_objects : Activator -> result unit;
  link_logic_bricks : Activator -> result unit;
  write_python_logic : Activator -> result unit
}.

(** ** Clickable links ([objects_w3dlink.py]) *)

Module W3DLink.

Section Link.

Context `{XmlTools} `{ActionCodec} `{Builtins} `{!Activators}.

(** The items of a link, read through their defaults, and the
    [activator] attribute that [blend] sets.  [actions] is the
    dictionary from click counts to action lists, in insertion order. *)
Record Link : Type := {
  enabled : bool;
  remain_enabled : bool;
  enabled_color : list Z;
  selected_color : list Z;
  actions : list (Z * list W3DAction);
  reset : Z;
  activator : option Activator
}.

(** [link_class()]: the [default_arguments] and an empty [actions]. *)
Definition new_link : Link :=
  {| enabled := true;
     remain_enabled := true;
     enabled_color := [0; 128; 255];
     selected_color := [255; 0; 0];
     actions := [];
     reset := -1;
     activator := None |}.

Definition set_enabled (b : bool) (l : Link) : Link :=
  {| enabled := b; remain_enabled := remain_enabled l;
     enabled_color := enabled_color l; selected_color := selected_color l;
     actions := actions l; reset := reset l; activator := activator l |}.
Definition set_remain_enabled (b : bool) (l : Link) : Link :=
  {| enabled := enabled l; remain_enabled := b;
     enabled_color := enabled_color l; selected_color := selected_color l;
     actions := actions l; reset := reset l; activator := activator l |}.
Definition set_enabled_color (c : list Z) (l : Link) : Link :=
  {| enabled := enabled l; remain_enabled := remain_enabled l;
     enabled_color := c; selected_color := selected_color l;
     actions := actions l; reset := reset l; activator := activator l |}.
Definition set_selected_color (c : list Z) (l : Link) : Link :=
  {| enabled := enabled l; remain_enabled := remain_enabled l;
     enabled_color := enabled_color l; selected_color := c;
     actions := actions l; reset := reset l; activator := activator l |}.
Definition set_actions (d : list (Z * list W3DAction)) (l : Link) : Link :=
  {| enabled := enabled l; remain_enabled := remain_enabled l;
     enabled_color := enabled_color l; selected_color := selected_color l;
     actions := d; reset := reset l; activator := activator l |}.
Definition set_reset (n : Z) (l : Link) : Link :=
  {| enabled := enabled l; remain_enabled := remain_enabled l;
     enabled_color := enabled_color l; selected_color := selected_color l;
     actions := actions l; reset := n; activator := activator l |}.
Definition set_activator (a : Activator) (l : Link) : Link :=
  {| enabled := enabled l; remain_enabled := remain_enabled l;
     enabled_color := enabled_color l; selected_color := selected_color l;
     actions := actions l; reset := reset l; activator := Some a |}.

(** [d[k].append(v)] on a [defaultdict(list)]: a new key goes last. *)
Fixpoint dict_append {V} (k : Z) (v : V) (d : list (Z * list V))
  : list (Z * list V) :=
  match d with
  | [] => [(k, [v])]
  | (k', vs) :: d' =>
      if k' =? k then (k', vs ++ [v]) :: d'
      else (k', vs) :: dict_append k v d'
  end.

(** The list filed under [k], empty when there is none. *)
Fixpoint dict_get {V} (k : Z) (d : list (Z * list V)) : list V :=
  match d with
  | [] => []
  | (k', vs) :: d' => if k' =? k then vs else dict_get k d'
  end.

(** The validator declared for the two colours,
    [ListValidator(IsInteger(min_value=0, max_value=255),
    required_length=3)]: three integers in [0, 255]. *)
Definition valid_color (c : list Z) : bool :=
  (length c =? 3)%nat && forallb (fun x => (0 <=? x) && (x <=? 255)) c.

(** Modelled from the spec: [W3DFeature.__setitem__] is not among the
    sources.  Assigning an item validates it and raises for a
    malformed one ("raised at construction/insertion"), the error
    being the [InvalidArgument] that the module imports. *)
Definition setitem_color (c : list Z) : result (list Z) :=
  if valid_color c then Ok c else Raise InvalidArgument.

(** The part of the loop body that reads [Clicks]: the click count of
    the node, and the link with its [reset] possibly lowered. *)
Definition read_clicks (link : Link) (actions_node : Xml.Element)
  : result (Z * Link) :=
  match Xml.find "Clicks" actions_node with
  | None => Ok (-1, link)
  | Some clicks_node =>
      match Xml.find "NumClicks" clicks_node with
      | None => Ok (-1, link)
      | Some num_clicks_node =>
          match Xml.attrib num_clicks_node !! "num_clicks" ≫= py_int with
          | None => Raise BadW3DXML
          | Some num_clicks =>
              match Xml.attrib num_clicks_node !! "reset" with
              | None => Ok (num_clicks, link)
              | Some r =>
                  match text2bool (Some r) with
                  | Ok true =>
                      if (num_clicks <? reset link) || (reset link =? -1)
                      then Ok (num_clicks, set_reset num_clicks link)
                      else Ok (num_clicks, link)
                  | Ok false => Ok (num_clicks, link)
                  | Raise KeyError => Ok (num_clicks, link)
                  | Raise e => Raise e
                  end
              end
          end
      end
  end.

(** The part that files every child other than [Clicks]. *)
Definition file_child (num_clicks : Z) (link : Link) (child : Xml.Element)
  : result Link :=
  if String.eqb (Xml.tag child) "Clicks" then Ok link
  else
    let* a := action_fromXML child in
    Ok (set_actions (dict_append num_clicks a (actions link)) link).

(** The body of [for actions_node in link_node.findall("Actions")]. *)
Definition read_actions_node (link : Link) (actions_node : Xml.Element)
  : result Link :=
  let* r := read_clicks link actions_node in
  let '(num_clicks, link') := r in
  foldM (file_child num_clicks) link' (Xml.children actions_node).

Definition read_color (current : list Z) (node : option Xml.Element)
  : result (list Z) :=
  match node with
  | None => Ok current
  | Some n => let* c := text2tuple (Xml.text n) in setitem_color c
  end.

Definition fromXML (link_root : Xml.Element) : result Link :=
  let link := new_link in
  match Xml.find "Link" link_root with
  | None => Raise BadW3DXML
  | Some link_node =>
      let* t := find_xml_text link_node "Enabled" in
      let* b := text2bool t in
      let link := set_enabled b link in
      let* t := find_xml_text link_node "RemainEnabled" in
      let* b := text2bool t in
      let link := set_remain_enabled b link in
      let* c := read_color (enabled_color link)
                  (Xml.find "EnabledColor" link_node) in
      let link := set_enabled_color c link in
      let* c := read_color (selected_color link)
                  (Xml.find "SelectedColor" link_node) in
      let link := set_selected_color c link in
      foldM read_actions_node link (Xml.findall "Actions" link_node)
  end.

(** The colour formatted as three comma-separated integers: fewer
    than three items raise. *)
Definition format_color (c : list Z) : result string :=
  match c with
  | r :: g :: b :: _ => Ok (pretty r +:+ "," +:+ pretty g +:+ "," +:+ pretty b)
  | _ => Raise IndexError
  end.

(** The [Clicks] node written for a click count. *)
Definition clicks_node (link : Link) (clicks : Z) : Xml.Element :=
  Xml.node "Clicks" ∅
    [ if clicks <? 0 then Xml.node "Any" ∅ []
      else Xml.node "NumClicks"
             (<["num_clicks" := pretty clicks]>
                (<["reset" := bool2text (reset link =? clicks)]> ∅)) [] ].

(** The [Actions] nodes, one per action, key after key. *)
Definition actions_nodes (link : Link) : list Xml.Element :=
  flat_map
    (fun '(clicks, action_list) =>
       map (fun current_action =>
              Xml.node "Actions" ∅
                [action_toXML current_action; clicks_node link clicks])
           action_list)
    (actions link).

(** [toXML], given by the [LinkRoot] node it appends. *)
Definition toXML (link : Link) : result Xml.Element :=
  let* ec := format_color (enabled_color link) in
  let* sc := format_color (selected_color link) in
  Ok (Xml.node "LinkRoot" ∅
        [ Xml.node "Link" ∅
            ([ Xml.text_node "Enabled" (bool2text (enabled link));
               Xml.text_node "RemainEnabled"
                 (bool2text (remain_enabled link));
               Xml.text_node "EnabledColor" ec;
               Xml.text_node "SelectedColor" sc ]
             ++ actions_nodes link) ]).

(** [blend(object_name)]: the link afterwards, and the outcome. *)
Definition blend (object_name : string) (self : Link)
  : Link * result unit :=
  match BlenderClickTrigger object_name (actions self)
          (enabled self) (remain_enabled self)
          (selected_color self) (enabled_color self) (reset self) with
  | Raise e => (self, Raise e)
  | Ok a => (set_activator a self, create_blender_objects a)
  end.

Definition link_blender_logic (self : Link) : result unit :=
  except_AttributeError
    (let* a := getattr (activator self) in link_logic_bricks a).

Definition write_blender_logic (self : Link) : result unit :=
  except_AttributeError
    (let* a := getattr (activator self) in write_python_logic a).

(** *** Reading a document's click bindings

    What a document says, for the statements about [fromXML]. *)

(** The children of an [Actions] node that are filed as actions. *)
Definition action_children (actions_node : Xml.Element) : list Xml.Element :=
  List.filter (fun c => negb (String.eqb (Xml.tag c) "Clicks"))
    (Xml.children actions_node).

(** The [NumClicks] node of an [Actions] node, if it has one. *)
Definition num_clicks_node (actions_node : Xml.Element)
  : option Xml.Element :=
  Xml.find "Clicks" actions_node ≫= Xml.find "NumClicks".

(** The click count of an [Actions] node whose [NumClicks] node is
    tagged [reset] with a text that [text2bool] reads as true. *)
Definition reset_tag (actions_node : Xml.Element) : option Z :=
  nc ← num_clicks_node actions_node;
  n ← Xml.attrib nc !! "num_clicks" ≫= py_int;
  r ← Xml.attrib nc !! "reset";
  match text2bool (Some r) with
  | Ok true => Some n
  | _ => None
  end.

(** The reset-tagged click counts of a [Link] node, in document order. *)
Definition reset_tags (link_node : Xml.Element) : list Z :=
  omap reset_tag (Xml.findall "Actions" link_node).

(** [reset] after one more reset-tagged click count [m], as the
    assignment under [if text2bool(...)] leaves it. *)
Definition lower_to (r m : Z) : Z :=
  if (m <? r) || (r =? -1) then m else r.

(** [d[k].append(a)] for every [a] of a list, in order. *)
Definition append_all {V} (k : Z) (vs : list V) (d : list (Z * list V))
  : list (Z * list V) :=
  fold_left (fun d v => dict_append k v d) vs d.

(** *** Documents and links that persist

    The conditions under which a document and the link read from it
    say the same. *)

Definition keys {V} (d : list (Z * list V)) : list Z := map fst d.

(** A dictionary as [toXML] writes it in full: keys are distinct and
    at least -1, and every key holds an action. *)
Definition tidy_dict {V} (d : list (Z * list V)) : Prop :=
  NoDup (keys d)
  /\ Forall (fun e => snd e <> []) d
  /\ Forall (fun k => -1 <= k) (keys d).

(** A link whose [reset] is the default or one of its click counts. *)
Definition tidy (link : Link) : Prop :=
  tidy_dict (actions link)
  /\ (reset link = -1
      \/ (0 <= reset link /\ In (reset link) (keys (actions link))))
  /\ valid_color (enabled_color link) = true
  /\ valid_color (selected_color link) = true
  /\ activator link = None.

(** The bindings of a dictionary, one per action, in [items()] order. *)
Definition entries {V} (d : list (Z * list V)) : list (Z * V) :=
  flat_map (fun '(k, vs) => map (pair k) vs) d.

(** The [Actions] node that [toXML] writes for one binding. *)
Definition entry_node (link : Link) (e : Z * W3DAction) : Xml.Element :=
  Xml.node "Actions" ∅ [action_toXML (snd e); clicks_node link (fst e)].

(** [reset] after reading the node written for the click count [k]. *)
Definition reset_step (link : Link) (r k : Z) : Z :=
  if (0 <=? k) && (reset link =? k) then lower_to r k else r.

(** The collaborators read back what they write for this link: the
    two booleans and the reset tags, the two colours, the click
    counts, and every action, whose element is not a [Clicks]. *)
Definition reads_back (link : Link) : Prop :=
  (forall node t c b,
     Xml.find t node = Some c -> Xml.text c = Some (bool2text b) ->
     (let* x := find_xml_text node t in text2bool x) = Ok b)
  /\ (forall b, text2bool (Some (bool2text b)) = Ok b)
  /\ (forall s, format_color (enabled_color link) = Ok s ->
                text2tuple (Some s) = Ok (enabled_color link))
  /\ (forall s, format_color (selected_color link) = Ok s ->
                text2tuple (Some s) = Ok (selected_color link))
  /\ Forall (fun e =>
               (0 <= fst e -> py_int (pretty (fst e)) = Some (fst e))
               /\ action_fromXML (action_toXML (snd e)) = Ok (snd e)
               /\ String.eqb (Xml.tag (action_toXML (snd e))) "Clicks"
                  = false)
            (entries (actions link)).

(** The click count under which an [Actions] node is filed: -1
    without a [NumClicks] node, and none when the node's count is not
    an integer. *)
Definition click_count (actions_node : Xml.Element) : option Z :=
  match num_clicks_node actions_node with
  | None => Some (-1)
  | Some nc => Xml.attrib nc !! "num_clicks" ≫= py_int
  end.

(** The actions that an [Actions] node binds, when they all parse. *)
Definition bound_actions (actions_node : Xml.Element) : list W3DAction :=
  match mapM action_fromXML (action_children actions_node) with
  | Ok acts => acts
  | Raise _ => []
  end.

(** The actions that the entries of a [Link] node bind to the click
    count [k], in document order. *)
Definition bound_to (k : Z) (link_node : Xml.Element) : list W3DAction :=
  flat_map
    (fun node =>
       if bool_decide (click_count node = Some k) then bound_actions node
       else [])
    (Xml.findall "Actions" link_node).

(** An entry without click data: its action children parse, and it
    has no [NumClicks] node (no [Clicks] child, or one without
    [NumClicks]), or a [NumClicks] node with a click count and no
    [reset] attribute. *)
Definition without_click_data (actions_node : Xml.Element) : Prop :=
  is_ok (mapM action_fromXML (action_children actions_node)) = true
  /\ (num_clicks_node actions_node = None
      \/ exists nc n,
           num_clicks_node actions_node = Some nc
           /\ Xml.attrib nc !! "num_clicks" ≫= py_int = Some n
           /\ Xml.attrib nc !! "reset" = None).

(** The [reset] that the tags of a [Link] node give. *)
Definition doc_reset (link_node : Xml.Element) : Z :=
  fold_left lower_to (reset_tags link_node) (-1).


(** The items that reading an entry leaves alone. *)
Definition same_items (M M' : Link) : Prop :=
  enabled M' = enabled M
  /\ remain_enabled M' = remain_enabled M
  /\ enabled_color M' = enabled_color M
  /\ selected_color M' = selected_color M
  /\ activator M' = activator M.

End Link.

End W3DLink.

(** ** Sorted lists ([pyw3d.structs.SortedList]) *)

Module SortedList.

Section SortedList.

Context {A : Type}.

(** Modelled from the spec: [pyw3d.structs.SortedList] is not among the
    sources.  The timeline holds pairs kept in non-decreasing order of
    start time, a new pair being inserted after the pairs of the same
    time ("insertion order among equal times is preserved"): before
    the first pair of a greater time, which among times that are
    numbers is the place that a search by halving finds. *)
Fixpoint add (x : pyfloat * A) (l : list (pyfloat * A))
  : list (pyfloat * A) :=
  match l with
  | [] => [x]
  | y :: l' =>
      if float_lt (fst x) (fst y) then x :: y :: l' else y :: add x l'
  end.

(** Modelled from the spec: [SortedList(iterable)] inserts the items
    of the iterable one after the other. *)
Definition of_list (xs : list (pyfloat * A)) : list (pyfloat * A) :=
  fold_left (fun l x => add x l) xs [].

(** The pairs of a given start time. *)
Definition at_time (t : pyfloat) (l : list (pyfloat * A))
  : list (pyfloat * A) :=
  List.filter (fun p => float_eq (fst p) t) l.

(** Non-decreasing start times. *)
Definition le_time (x y : pyfloat * A) : Prop :=
  float_le (fst x) (fst y) = true.

(** The second pair is not before the first one. *)
Definition not_after (x y : pyfloat * A) : Prop :=
  float_lt (fst y) (fst x) = false.

(** Start times that are numbers. *)
Definition no_nan (l : list (pyfloat * A)) : Prop :=
  Forall (fun p => is_nan (fst p) = false) l.

(** A list is a stable sorting of the sequence of its insertions: it
    is in non-decreasing order of time, holds the inserted pairs, and
    keeps the pairs of any one time in their order of insertion. *)
Definition stable_sorting (inserted l : list (pyfloat * A)) : Prop :=
  StronglySorted le_time l
  /\ Permutation l inserted
  /\ forall t, at_time t l = at_time t inserted.

End SortedList.

End SortedList.

(** ** Timelines ([timeline.py]) *)

Module W3DTimeline.

Section Timeline.

Context `{XmlTools} `{ActionCodec} `{Builtins} `{NameValidator}
        `{!Activators}.

(** The items of a timeline, [None] for an item that is not stored,
    and the [activator] attribute that [blend] sets. *)
Record Timeline : Type := {
  name : option string;
  start_immediately : option bool;
  actions : list (pyfloat * W3DAction);
  activator : option Activator
}.

Definition set_name (n : string) (t : Timeline) : Timeline :=
  {| name := Some n; start_immediately := start_immediately t;
     actions := actions t; activator := activator t |}.
Definition set_start_immediately (b : bool) (t : Timeline) : Timeline :=
  {| name := name t; start_immediately := Some b;
     actions := actions t; activator := activator t |}.
Definition set_actions (l : list (pyfloat * W3DAction)) (t : Timeline)
  : Timeline :=
  {| name := name t; start_immediately := start_immediately t;
     actions := l; activator := activator t |}.
Definition set_activator (a : Activator) (t : Timeline) : Timeline :=
  {| name := name t; start_immediately := start_immediately t;
     actions := actions t; activator := Some a |}.

(** [IsNumeric(min_value=0)] on a start time. *)
Definition IsNumeric_min0 (t : pyfloat) : bool := float_le (Finite 0) t.

(** The validator of [actions]: every pair has a start time that
    [IsNumeric(min_value=0)] accepts and an action. *)
Definition valid_actions (l : list (pyfloat * W3DAction)) : bool :=
  forallb (fun p => IsNumeric_min0 (fst p)) l.

(** Modelled from the spec: [W3DFeature.__init__] is not among the
    sources.  Construction validates the arguments it is given and
    raises for a malformed one ("raised at construction"); then
    [__init__] wraps the actions in a [SortedList]. *)
Definition init (n : option string) (si : option bool)
  (acts : option (list (pyfloat * W3DAction))) : result Timeline :=
  let* n' := match n with
             | None => Ok None
             | Some s => let* s' := setitem_name s in Ok (Some s')
             end in
  let* l := match acts with
            | None => Ok []
            | Some l =>
                if valid_actions l then Ok (SortedList.of_list l)
                else Raise InvalidArgument
            end in
  Ok {| name := n'; start_immediately := si; actions := l;
        activator := None |}.

(** [timeline_class()] *)
Definition new_timeline : Timeline :=
  {| name := None; start_immediately := None; actions := [];
     activator := None |}.

(** [self["start_immediately"]], through [default_arguments]. *)
Definition get_start_immediately (t : Timeline) : bool :=
  default true (start_immediately t).

(** [self["name"]]: there is no default for a name. *)
Definition get_name (t : Timeline) : result string :=
  match name t with
  | Some n => Ok n
  | None => Raise KeyError
  end.

Definition timed_actions_node (p : pyfloat * W3DAction) : Xml.Element :=
  Xml.node "TimedActions" (<["seconds-time" := py_str_float (fst p)]> ∅)
    [action_toXML (snd p)].

(** [toXML], given by the [Timeline] node it appends. *)
Definition toXML (self : Timeline) : result Xml.Element :=
  match name self with
  | None => Raise ConsistencyError
  | Some n =>
      let timeline_attribs : gmap string string := <["name" := n]> ∅ in
      let timeline_attribs :=
        match start_immediately self with
        | Some b => <["start-immediately" := bool2text b]> timeline_attribs
        | None => timeline_attribs
        end in
      Ok (Xml.node "Timeline" timeline_attribs
            (map timed_actions_node (actions self)))
  end.

(** The inner loop of [fromXML]: every child of a [TimedActions] node
    is added at the node's time. *)
Definition add_child (action_time : pyfloat) (tl : Timeline)
  (child : Xml.Element) : result Timeline :=
  let* a := action_fromXML child in
  Ok (set_actions (SortedList.add (action_time, a) (actions tl)) tl).

(** The body of [for timed_action in timeline_root.findall(...)]. *)
Definition read_timed_actions (tl : Timeline) (timed_action : Xml.Element)
  : result Timeline :=
  match Xml.attrib timed_action !! "seconds-time" ≫= py_float with
  | None => Raise BadW3DXML
  | Some action_time =>
      foldM (add_child action_time) tl (Xml.children timed_action)
  end.

Definition fromXML (timeline_root : Xml.Element) : result Timeline :=
  let tl := new_timeline in
  match Xml.attrib timeline_root !! "name" with
  | None => Raise BadW3DXML
  | Some n =>
      match setitem_name n with
      | Raise KeyError => Raise BadW3DXML
      | Raise e => Raise e
      | Ok n' =>
          let tl := set_name n' tl in
          let* tl :=
            match Xml.attrib timeline_root !! "start-immediately" with
            | None => Ok tl
            | Some s =>
                let* b := text2bool (Some s) in
                Ok (set_start_immediately b tl)
            end in
          foldM read_timed_actions tl
            (Xml.findall "TimedActions" timeline_root)
      end
  end.

(** [blend()]: the timeline afterwards, and the outcome. *)
Definition blend (self : Timeline) : Timeline * result unit :=
  match get_name self with
  | Raise e => (self, Raise e)
  | Ok n =>
      match BlenderTimeline n (actions self) (get_start_immediately self)
      with
      | Raise e => (self, Raise e)
      | Ok a => (set_activator a self, create_blender_objects a)
      end
  end.

Definition link_blender_logic (self : Timeline) : result unit :=
  except_AttributeError
    (let* a := getattr (activator self) in link_logic_bricks a).

(** The message of [LOGGER.debug] is formatted with [self["name"]]
    before the [try] is entered. *)
Definition write_blender_logic (self : Timeline) : result unit :=
  let* _ := get_name self in
  except_AttributeError
    (let* a := getattr (activator self) in write_python_logic a).

(** *** Reading a document's timed actions

    What a document says, for the statements about [fromXML]. *)

(** The pairs of one [TimedActions] node, in document order. *)
Definition node_pairs (timed_action : Xml.Element)
  : result (list (pyfloat * W3DAction)) :=
  match Xml.attrib timed_action !! "seconds-time" ≫= py_float with
  | None => Raise BadW3DXML
  | Some action_time =>
      let* acts := mapM action_fromXML (Xml.children timed_action) in
      Ok (map (pair action_time) acts)
  end.

(** The pairs of a [Timeline] node, in document order. *)
Definition timed_pairs (timeline_root : Xml.Element)
  : result (list (pyfloat * W3DAction)) :=
  let* ls := mapM node_pairs (Xml.findall "TimedActions" timeline_root) in
  Ok (concat ls).

(** The collaborators read back what they write for this timeline:
    its name, the boolean, the times and the actions. *)
Definition reads_back (tl : Timeline) : Prop :=
  (forall n, name tl = Some n -> setitem_name n = Ok n)
  /\ (forall b, text2bool (Some (bool2text b)) = Ok b)
  /\ Forall (fun p =>
               py_float (py_str_float (fst p)) = Some (fst p)
               /\ action_fromXML (action_toXML (snd p)) = Ok (snd p))
            (actions tl).

End Timeline.

End W3DTimeline.

(** ** Utilities ([objects_utility.py]) *)

Module Utility.

(** [string.count('\n')] *)
Fixpoint count_newlines (s : string) : Z :=
  match s with
  | EmptyString => 0
  | String a s' =>
      (if Ascii.eqb a (Ascii.ascii_of_nat 10) then 1 else 0)
      + count_newlines s'
  end.

Definition line_count (s : string) : Z := count_newlines s + 1.

(** *** Models imported once

    The function keeps the imported models in its own [_models]
    attribute, [None] as long as the attribute does not exist.  The
    host's scene is a state that the host's calls change. *)

Section Models.

Variables World Obj : Type.

(** [duplicate_object(original)], on the host's objects. *)
Variable duplicate_object : Obj -> World -> World * result Obj.

(** The host's work in the [KeyError] handler: import the file,
    convert its pieces, join them, and take the resulting object. *)
Variable import_model : string -> World -> World * result Obj.

(** What a call leaves: the scene, the attribute, and the outcome. *)
Definition ModelCall : Type :=
  (World * option (gmap string Obj) * result Obj)%type.

(** [generate_object_from_model(filename)].  [fuel] bounds the depth
    of the calls the function makes to itself; [None] is running out
    of it. *)
Fixpoint generate_object_from_model (fuel : nat) (filename : string)
  (models : option (gmap string Obj)) (w : World) : option ModelCall :=
  match fuel with
  | O => None
  | S fuel' =>
      let attempt : World * result Obj :=
        match models with
        | None => (w, Raise AttributeError)
        | Some ms =>
            match ms !! filename with
            | None => (w, Raise KeyError)
            | Some original => duplicate_object original w
            end
        end in
      match attempt with
      | (w1, Ok new) => Some (w1, models, Ok new)
      | (w1, Raise AttributeError) =>
          generate_object_from_model fuel' filename (Some ∅) w1
      | (w1, Raise KeyError) =>
          match import_model filename w1 with
          | (w2, Ok new_model) =>
              Some (w2,
                    Some (<[filename := new_model]> (default ∅ models)),
                    Ok new_model)
          | (w2, Raise e) => Some (w2, models, Raise e)
          end
      | (w1, Raise e) => Some (w1, models, Raise e)
      end
  end.

End Models.

(** *** Materials built once per image *)

(** The settings that the code gives to what it creates. *)
Record Texture (Image : Type) : Type := {
  texture_name : string;
  image : Image;
  image_use_alpha : bool
}.
Arguments texture_name {Image} _.
Arguments image {Image} _.
Arguments image_use_alpha {Image} _.

Record Slot (Image : Type) : Type := {
  use_map_alpha : bool;
  texture : Texture Image;
  texture_coords : string
}.
Arguments use_map_alpha {Image} _.
Arguments texture {Image} _.
Arguments texture_coords {Image} _.

Record Material (Image : Type) : Type := {
  material_name : string;
  use_transparency : bool;
  transparency_method : string;
  alpha : Z;
  use_backface_culling : bool;
  texture_slot : Slot Image
}.
Arguments material_name {Image} _.
Arguments use_transparency {Image} _.
Arguments transparency_method {Image} _.
Arguments alpha {Image} _.
Arguments use_backface_culling {Image} _.
Arguments texture_slot {Image} _.

Section Materials.

Variables World Image : Type.

(** [bpy.path.display_name_from_filepath(filename)] *)
Variable display_name_from_filepath : string -> string.

(** [os.path.splitext(os.path.basename(filename))[0]] *)
Variable basename_root : string -> string.

(** [bpy.data.images.load(filename)], which raises for a file that
    is not found. *)
Variable images_load : string -> World -> World * result Image.

(** A material as the handler leaves it: created under the name with
    the given suffix, prepared by [_alpha_prep], textured, with the
    given back-face culling. *)
Definition image_material (filename : string) (suffix : string)
  (culling : bool) (img : Image) : Material Image :=
  {| material_name := display_name_from_filepath filename +:+ suffix;
     use_transparency := true;
     transparency_method := "Z_TRANSPARENCY";
     alpha := 0;
     use_backface_culling := culling;
     texture_slot :=
       {| use_map_alpha := true;
          texture :=
            {| texture_name := basename_root filename +:+ "_"
                                 +:+ "image_texture";
               image := img;
               image_use_alpha := true |};
          texture_coords := "UV" |} |}.

(** The body of the [KeyError] handler, up to the pair it stores. *)
Definition build_materials (filename : string) (w : World)
  : World * result (Material Image * Material Image) :=
  match images_load filename w with
  | (w', Ok img) =>
      (w', Ok (image_material filename "0" true img,
               image_material filename "1" false img))
  | (w', Raise e) => (w', Raise e)
  end.

Definition MaterialCall : Type :=
  (World * option (gmap string (Material Image * Material Image))
   * result (Material Image))%type.

(** [generate_material_from_image(filename, double_sided)], with
    [fuel] as above.  A pair is indexed by the boolean: the second
    item for [True]. *)
Fixpoint generate_material_from_image (fuel : nat) (filename : string)
  (double_sided : bool)
  (materials : option (gmap string (Material Image * Material Image)))
  (w : World) : option MaterialCall :=
  match fuel with
  | O => None
  | S fuel' =>
      match materials with
      | None =>
          generate_material_from_image fuel' filename double_sided
            (Some ∅) w
      | Some ms =>
          match ms !! filename with
          | Some both =>
              Some (w, materials,
                    Ok (if double_sided then snd both else fst both))
          | None =>
              match build_materials filename w with
              | (w', Ok both) =>
                  generate_material_from_image fuel' filename double_sided
                    (Some (<[filename := both]> ms)) w'
              | (w', Raise e) => Some (w', materials, Raise e)
              end
          end
      end
  end.

End Materials.

End Utility.

(** ** Sample collaborators

    One implementation of each interface, for the concrete documents
    and objects on which the statements are exercised. *)

Module Sample.

Definition digit (a : Ascii.ascii) : option Z :=
  let n := Z.of_N (Ascii.N_of_ascii a) in
  if (48 <=? n) && (n <=? 57) then Some (n - 48) else None.

Fixpoint digits (s : string) (acc : Z) : option Z :=
  match s with
  | EmptyString => Some acc
  | String a s' =>
      match digit a with
      | Some d => digits s' (10 * acc + d)
      | None => None
      end
  end.

Definition natural (s : string) : option Z :=
  match s with
  | EmptyString => None
  | _ => digits s 0
  end.

(** A decimal integer with an optional minus sign. *)
Definition int (s : string) : option Z :=
  match s with
  | String "-"%char s' => Z.opp <$> natural s'
  | _ => natural s
  end.

(** The text before a final [.0], if the text ends so. *)
Fixpoint whole_part (s : string) : option string :=
  match s with
  | EmptyString => None
  | String a s' =>
      if String.eqb s ".0" then Some EmptyString
      else String a <$> whole_part s'
  end.

(** A whole number of seconds, written [n] or [n.0], an infinity or
    nan. *)
Definition float (s : string) : option pyfloat :=
  if String.eqb s "nan" then Some NaN
  else if String.eqb s "inf" then Some (Infinity false)
  else if String.eqb s "-inf" then Some (Infinity true)
  else
    match int s with
    | Some n => Some (Finite (inject_Z n))
    | None => (fun n => Finite (inject_Z n)) <$> (whole_part s ≫= int)
    end.

Definition str_float (t : pyfloat) : string :=
  match t with
  | Finite q =>
      if (Qden q =? 1)%positive then pretty (Qnum q) +:+ ".0"
      else pretty (Qnum q) +:+ "/" +:+ pretty (Z.pos (Qden q))
  | Infinity false => "inf"
  | Infinity true => "-inf"
  | NaN => "nan"
  end.

(** The pieces of a text between commas. *)
Fixpoint split_commas (s : string) (piece : string) : list string :=
  match s with
  | EmptyString => [piece]
  | String a s' =>
      if Ascii.eqb a ","%char then piece :: split_commas s' EmptyString
      else split_commas s' (piece +:+ String a EmptyString)
  end.

Fixpoint all_some {A} (l : list (option A)) : option (list A) :=
  match l with
  | [] => Some []
  | Some x :: l' => cons x <$> all_some l'
  | None :: _ => None
  end.

#[local] Instance xml_tools : XmlTools := {|
  text2bool := fun t =>
    match t with
    | Some s =>
        if String.eqb s "true" then Ok true
        else if String.eqb s "false" then Ok false
        else Raise BadW3DXML
    | None => Raise BadW3DXML
    end;
  bool2text := fun b => if b then "true" else "false";
  find_xml_text := fun node t => Ok (Xml.find t node ≫= Xml.text);
  text2tuple := fun t =>
    match t with
    | Some s =>
        match all_some (map int (split_commas s EmptyString)) with
        | Some l => Ok l
        | None => Raise ValueError
        end
    | None => Raise AttributeError
    end
|}.

(** Actions that are their element's tag. *)
#[local] Instance action_codec : ActionCodec := {|
  W3DAction := string;
  action_fromXML := fun e => Ok (Xml.tag e);
  action_toXML := fun a => Xml.node a ∅ []
|}.

#[local] Instance builtins : Builtins := {|
  py_int := int;
  py_float := float;
  py_str_float := str_float
|}.

#[local] Instance name_validator : NameValidator := {|
  setitem_name := fun s => Ok s
|}.

(** Activators whose every step succeeds. *)
#[local] Instance activators : Activators := {|
  Activator := unit;
  BlenderTimeline := fun _ _ _ => Ok tt;
  BlenderClickTrigger := fun _ _ _ _ _ _ _ => Ok tt;
  create_blender_objects := fun _ => Ok tt;
  link_logic_bricks := fun _ => Ok tt;
  write_python_logic := fun _ => Ok tt
|}.

(** The box of the design's examples, and two tracked objects. *)
Definition box_0_10 (dir : string) : ObjectTrigger.Box :=
  {| ObjectTrigger.corner1 := [0%Q; 0%Q; 0%Q];
     ObjectTrigger.corner2 := [10%Q; 10%Q; 10%Q];
     ObjectTrigger.direction := dir |}.

Definition trigger (dir : string) (objects : list string) (any : bool)
  : ObjectTrigger.BlenderObjectPositionTrigger :=
  {| ObjectTrigger.name := "trigger";
     ObjectTrigger.box := box_0_10 dir;
     ObjectTrigger.objects_string := ObjectTrigger.ObjectNames objects;
     ObjectTrigger.detect_any := any |}.

(** A base class that gives item access to the trigger's attributes,
    and a module that binds no group name. *)
Definition self_box (self : ObjectTrigger.BlenderObjectPositionTrigger)
  : Py.result ObjectTrigger.Box :=
  Py.Ok (ObjectTrigger.box self).

Definition no_group (group : string) : option (list string) := None.

Definition position_in : list Q := [5%Q; 5%Q; 5%Q].
Definition position_out : list Q := [11%Q; 0%Q; 0%Q].

Definition scene : gmap string (list Q) :=
  <["object_in" := position_in]> (<["object_out" := position_out]> ∅).

(** Sample link documents. *)
Definition num_clicks (n r : string) : Xml.Element :=
  Xml.node "NumClicks" (<["num_clicks" := n]> (<["reset" := r]> ∅)) [].

Definition actions_entry (action : string) (clicks : list Xml.Element)
  : Xml.Element :=
  Xml.node "Actions" ∅ [Xml.node action ∅ []; Xml.node "Clicks" ∅ clicks].

Definition link_node (entries : list Xml.Element) : Xml.Element :=
  Xml.node "Link" ∅
    ([Xml.text_node "Enabled" "true"; Xml.text_node "RemainEnabled" "true"]
     ++ entries).

Definition link_doc (entries : list Xml.Element) : Xml.Element :=
  Xml.node "LinkRoot" ∅ [link_node entries].

Definition entries_5_3 : list Xml.Element :=
  [ actions_entry "ObjectChange" [num_clicks "5" "true"];
    actions_entry "SoundRef" [num_clicks "3" "true"] ].

Definition entries_3_5 : list Xml.Element :=
  [ actions_entry "SoundRef" [num_clicks "3" "true"];
    actions_entry "ObjectChange" [num_clicks "5" "true"] ].

(** Entries that tag the count -1, the value of a link without
    [reset], and the count 3. *)
Definition entries_m1_3 : list Xml.Element :=
  [ actions_entry "ObjectChange" [num_clicks "-1" "true"];
    actions_entry "SoundRef" [num_clicks "3" "true"] ].

Definition entries_3_m1 : list Xml.Element :=
  [ actions_entry "SoundRef" [num_clicks "3" "true"];
    actions_entry "ObjectChange" [num_clicks "-1" "true"] ].

(** Entries without click data, around an entry that has it all. *)
Definition entries_without_click_data : list Xml.Element :=
  [ Xml.node "Actions" ∅ [Xml.node "ObjectChange" ∅ []];
    actions_entry "SoundRef" [num_clicks "3" "true"];
    actions_entry "MoveVR" [];
    Xml.node "Actions" ∅
      [ Xml.node "TimelineRef" ∅ [];
        Xml.node "Clicks" ∅
          [Xml.node "NumClicks" (<["num_clicks" := "2"]> ∅) []] ] ].

(** Sample timeline documents. *)
Definition timed (seconds : string) (action : string) : Xml.Element :=
  Xml.node "TimedActions" (<["seconds-time" := seconds]> ∅)
    [Xml.node action ∅ []].

Definition timeline_doc (nodes : list Xml.Element) : Xml.Element :=
  Xml.node "Timeline" (<["name" := "intro"]> ∅) nodes.

Definition pairs_given : list (pyfloat * W3DAction) :=
  [(Finite 2, "b"); (Finite 1, "a"); (Finite 2, "c")].

Definition pairs_sorted : list (pyfloat * W3DAction) :=
  [(Finite 1, "a"); (Finite 2, "b"); (Finite 2, "c")].

Definition timeline_sorted : W3DTimeline.Timeline :=
  {| W3DTimeline.name := Some "intro";
     W3DTimeline.start_immediately := None;
     W3DTimeline.actions := pairs_sorted;
     W3DTimeline.activator := None |}.

Definition link_5_3 : W3DLink.Link :=
  {| W3DLink.enabled := true;
     W3DLink.remain_enabled := true;
     W3DLink.enabled_color := [0; 128; 255];
     W3DLink.selected_color := [255; 0; 0];
     W3DLink.actions := [(5, ["ObjectChange"]); (3, ["SoundRef"])];
     W3DLink.reset := 3;
     W3DLink.activator := None |}.

Definition timeline_doc_2_1_2 : Xml.Element :=
  timeline_doc [timed "2" "b"; timed "1" "a"; timed "2" "c"].

(** A sample host for the utilities: the scene counts the host's
    calls, an object is its name, and every file is found but the
    ones called missing. *)
Definition host_duplicate (original : string) (w : nat)
  : nat * result string :=
  (S w, Ok (original +:+ ".001")).

Definition host_import (filename : string) (w : nat)
  : nat * result string :=
  if String.eqb filename "missing.obj" then (S w, Raise ValueError)
  else (S w, Ok filename).

Definition host_load (filename : string) (w : nat) : nat * result string :=
  if String.eqb filename "missing.png" then (S w, Raise ValueError)
  else (S w, Ok filename).

Definition host_display_name (filename : string) : string := filename.

(** A [text2bool] that looks the text up in a table, and raises
    [KeyError] for a text that is not there. *)
Definition keyed_tools : XmlTools := {|
  text2bool := fun t =>
    match t with
    | Some s =>
        if String.eqb s "true" then Ok true
        else if String.eqb s "false" then Ok false
        else Raise KeyError
    | None => Raise KeyError
    end;
  bool2text := fun b => if b then "true" else "false";
  find_xml_text := fun node t => Ok (Xml.find t node ≫= Xml.text);
  text2tuple := fun _ => Raise ValueError
|}.

(** A link whose [reset] is a click count that binds no action. *)
Definition link_1_reset_3 : W3DLink.Link :=
  {| W3DLink.enabled := true;
     W3DLink.remain_enabled := true;
     W3DLink.enabled_color := [0; 128; 255];
     W3DLink.selected_color := [255; 0; 0];
     W3DLink.actions := [(1, ["ObjectChange"])];
     W3DLink.reset := 3;
     W3DLink.activator := None |}.

End Sample.

(** * Properties *)

Lemma bind_ok_inv {A B} (r : result A) (k : A -> result B) (b : B) :
  Py.bind r k = Ok b -> exists a, r = Ok a /\ k a = Ok b.
Proof. destruct r as [a|e]; simpl; [eauto | discriminate]. Qed.

Lemma foldM_app {A B} (f : A -> B -> result A) acc xs ys :
  foldM f acc (xs ++ ys) = (let* acc' := foldM f acc xs in foldM f acc' ys).
Proof.
  revert acc. induction xs as [|x xs IH]; intros acc; simpl; [done|].
  destruct (f acc x); simpl; auto.
Qed.

Lemma index_out_of_range {A} (l : list A) (i : Z) :
  i < - Z.of_nat (length l) \/ Z.of_nat (length l) <= i ->
  Py.index l i = Raise IndexError.
Proof.
  intros Hi. unfold Py.index.
  destruct (i <? 0) eqn:Hneg.
  - apply Z.ltb_lt in Hneg.
    destruct (i + Z.of_nat (length l) <? 0) eqn:Hj; [done|].
    apply Z.ltb_ge in Hj. exfalso; lia.
  - apply Z.ltb_ge in Hneg.
    assert (Hge : (Z.of_nat (length l) <=? i) = true) by (apply Z.leb_le; lia).
    rewrite Hge. by rewrite orb_true_r.
Qed.

(** ** The generated detection logic *)

Module ObjectTriggerFacts.

Import ObjectTrigger.

(** With no module-level [i], the test of one object stops at the
    first read of [i]. *)
Lemma region_test_unbound dir corners p :
  region_test None dir corners p = Raise NameError.
Proof. reflexivity. Qed.

(** On Python 3 the module is refused: no value of [in_region] is
    ever computed. *)
Lemma in_region_python3 global_i getitem_box global_group self scene :
  is_ok (in_region_of global_i Python3 getitem_box global_group self scene)
  = false
  /\ forall b, getitem_box self = Ok b ->
       in_region_of global_i Python3 getitem_box global_group self scene
       = Raise SyntaxError.
Proof.
  unfold in_region_of, corners_of. split.
  - by destruct (getitem_box self).
  - by intros b ->.
Qed.

(** The loop over no object leaves [in_region] at its initial value. *)
Lemma in_region_no_object
  global_i interp getitem_box global_group self scene corners :
  corners_of interp getitem_box self = Ok corners ->
  objects_string self = ObjectNames [] ->
  in_region_of global_i interp getitem_box global_group self scene
  = Ok (negb (detect_any self)).
Proof.
  intros Hcorners Hnil. unfold in_region_of, object_names.
  by rewrite Hcorners, Hnil.
Qed.

(** The first turn of the loop always evaluates the test, so one
    tracked object is enough for the unbound name to be read. *)
Lemma in_region_unbound
  interp getitem_box global_group self scene corners o os :
  corners_of interp getitem_box self = Ok corners ->
  object_names global_group self = Ok (o :: os) ->
  is_ok (mapM (Py.getitem scene) (o :: os)) = true ->
  in_region_of None interp getitem_box global_group self scene
  = Raise NameError.
Proof.
  intros Hcorners Hobjs Hok. unfold in_region_of.
  rewrite Hcorners, Hobjs. cbn [Py.bind].
  destruct (mapM (Py.getitem scene) (o :: os)) as [ps|e] eqn:Hps;
    [|discriminate].
  simpl in Hps. destruct (Py.getitem scene o); [|discriminate].
  simpl in Hps. destruct (mapM (Py.getitem scene) os); [|discriminate].
  simpl in Hps. injection Hps as <-. simpl.
  by destruct (detect_any self).
Qed.

(** Were the test of each object to return [c p], the loop would
    combine these values by [or] from [False] or by [and] from [True]. *)
Lemma loop_aggregates global_i any dir corners (c : list Q -> bool) ps acc :
  Forall (fun p => region_test global_i dir corners p = Ok (c p)) ps ->
  foldM (loop_body global_i any dir corners) acc ps
  = Ok (if any then acc || existsb c ps else acc && forallb c ps).
Proof.
  intros Hps. revert acc.
  induction Hps as [|p ps Hp _ IH]; intros acc; simpl.
  - destruct any; by rewrite ?orb_false_r, ?andb_true_r.
  - unfold loop_body at 1. destruct any, acc; simpl; rewrite ?Hp; simpl;
      rewrite IH; simpl; done.
Qed.

(** C1 (as the code has it): the test generated for one object reads
    [position[i]] and [corners[i]] with no loop over the axes.  At the
    design's example, box (0,0,0)-(10,10,10), mode Inside, position
    (5,5,5), the design's predicate holds while the generated test
    raises [NameError]; and whatever the module binds [i] to, some
    position is judged differently by the generated test and by the
    design's predicate. *)
Theorem C1_region_test_has_no_axis_loop :
  region_test None "Inside"
    (combine (corner1 (Sample.box_0_10 "Inside"))
             (corner2 (Sample.box_0_10 "Inside")))
    Sample.position_in = Raise NameError
  /\ spec_contained (Sample.box_0_10 "Inside") Sample.position_in = true
  /\ forall global_i : option Z, exists p : list Q,
       length p = 3%nat
       /\ region_test global_i "Inside"
            (combine (corner1 (Sample.box_0_10 "Inside"))
                     (corner2 (Sample.box_0_10 "Inside"))) p
          <> Ok (spec_contained (Sample.box_0_10 "Inside") p).
Proof.
  split; [reflexivity|]. split; [reflexivity|].
  intros [i|].
  - assert (Hcases : i = 0 \/ i = -3 \/ i = 1 \/ i = -2 \/ i = 2 \/ i = -1
                     \/ i < -3 \/ 3 <= i) by lia.
    destruct Hcases as [->|[->|[->|[->|[->|[->|Hout]]]]]].
    1,2: exists [5%Q; 11%Q; 5%Q]; split; [reflexivity|];
         intros Heq; vm_compute in Heq; discriminate.
    1,2,3,4: exists [11%Q; 5%Q; 5%Q]; split; [reflexivity|];
         intros Heq; vm_compute in Heq; discriminate.
    exists Sample.position_in. split; [reflexivity|].
    unfold region_test, outside_test, lookup_i. simpl Py.bind.
    rewrite index_out_of_range by (simpl; lia). discriminate.
  - exists Sample.position_in. split; [reflexivity|]. discriminate.
Qed.

(** C2 (as the code has it): with two tracked objects, one inside and
    one outside the box, mode Inside, the design's aggregate is true
    for [detect_any] and false otherwise, while the generated loop,
    read with [corners] as the list of pairs, raises [NameError] on
    its first turn in both cases, the test of an object reading the
    unbound [i]; on Python 3 the module is not even loaded, whatever
    the trigger; and whatever the interpreter is and the module binds
    [i] and the group names to, the generated loop and the design's
    aggregate differ on some single tracked object. *)
Theorem C2_aggregate_stops_at_first_object :
  in_region_of None Python2 Sample.self_box Sample.no_group
    (Sample.trigger "Inside" ["object_in"; "object_out"] true)
    Sample.scene = Raise NameError
  /\ spec_detect true (Sample.box_0_10 "Inside")
       [Sample.position_in; Sample.position_out] = true
  /\ in_region_of None Python2 Sample.self_box Sample.no_group
       (Sample.trigger "Inside" ["object_in"; "object_out"] false)
       Sample.scene = Raise NameError
  /\ spec_detect false (Sample.box_0_10 "Inside")
       [Sample.position_in; Sample.position_out] = false
  /\ (forall global_i getitem_box global_group self scene,
        is_ok (in_region_of global_i Python3 getitem_box global_group
                 self scene) = false)
  /\ forall (global_i : option Z) (interp : Interpreter)
            (global_group : string -> option (list string)),
     exists p : list Q,
       length p = 3%nat
       /\ in_region_of global_i interp Sample.self_box global_group
            (Sample.trigger "Inside" ["object"] true)
            (<["object" := p]> ∅)
          <> Ok (spec_detect true (Sample.box_0_10 "Inside") [p]).
Proof.
  split; [vm_compute; reflexivity|]. split; [vm_compute; reflexivity|].
  split; [vm_compute; reflexivity|]. split; [vm_compute; reflexivity|].
  split; [intros; apply in_region_python3|].
  intros global_i [|] global_group.
  - destruct global_i as [i|].
    + assert (Hcases : i = 0 \/ i = -3 \/ i = 1 \/ i = -2 \/ i = 2
                       \/ i = -1 \/ i < -3 \/ 3 <= i) by lia.
      destruct Hcases as [->|[->|[->|[->|[->|[->|Hout]]]]]].
      1,2: exists [5%Q; 11%Q; 5%Q]; split; [reflexivity|];
           intros Heq; vm_compute in Heq; discriminate.
      1,2,3,4: exists [11%Q; 5%Q; 5%Q]; split; [reflexivity|];
           intros Heq; vm_compute in Heq; discriminate.
      exists Sample.position_in. split; [reflexivity|].
      change (in_region_of (Some i) Python2 Sample.self_box global_group
                (Sample.trigger "Inside" ["object"] true)
                (<["object" := Sample.position_in]> ∅))
        with (let* all_objects :=
                mapM (Py.getitem (<["object" := Sample.position_in]> ∅))
                  ["object"] in
              foldM (loop_body (Some i) true "Inside"
                       (combine (corner1 (Sample.box_0_10 "Inside"))
                                (corner2 (Sample.box_0_10 "Inside"))))
                    false all_objects).
      unfold Py.getitem. simpl mapM. rewrite lookup_insert_eq. simpl.
      unfold region_test, outside_test, lookup_i. simpl Py.bind.
      rewrite index_out_of_range by (simpl; lia). discriminate.
    + exists Sample.position_in. split; [reflexivity|].
      intros Heq; vm_compute in Heq; discriminate.
  - exists Sample.position_in. split; [reflexivity|]. discriminate.
Qed.

(** The outcome of the final [if] on any owner, from the value of
    [in_region]: the owner is left as it was, or its [status] goes
    from ['Stop'] to ['Start']. *)
Lemma detect_event_cases
  global_i interp getitem_box global_group self scene own :
  let run := detect_event global_i interp getitem_box global_group
               self scene own in
  fst run = own
  \/ (in_region_of global_i interp getitem_box global_group self scene
      = Ok true
      /\ (exists v, own !! "enabled" = Some v /\ truthy v = true)
      /\ own !! "status" = Some (VStr "Stop")
      /\ run = (<["status" := VStr "Start"]> own, Ok tt)).
Proof.
  unfold detect_event.
  destruct (in_region_of global_i interp getitem_box global_group
              self scene) as [[|]|e] eqn:Hreg; simpl; [|by left..].
  unfold Py.getitem.
  destruct (own !! "enabled") as [en|] eqn:Hen; simpl; [|by left].
  destruct (truthy en) eqn:Htruthy; [|by left].
  destruct (own !! "status") as [st|] eqn:Hst; simpl; [|by left].
  destruct (eq_str st "Stop") eqn:Hstop; [|by left].
  right. repeat split; [eauto|].
  destruct st; simpl in Hstop; try discriminate.
  apply String.eqb_eq in Hstop. by subst.
Qed.

(** The properties of a state holder after [status] is set. *)
Lemma properties_started (h : StateHolder) :
  <["status" := VStr "Start"]> (properties h)
  = properties {| holder_enabled := holder_enabled h;
                  holder_status := Start |}.
Proof. destruct h as [[|] [|]]; vm_compute; reflexivity. Qed.

(** C5: an activation of the generated [detect_event] on a state
    holder, which has exactly the two fields [enabled] and [status],
    leaves a state holder: no field is added or removed, [enabled] is
    as it was, and [status] is as it was or goes from [Stop] to
    [Start]; it goes to [Start] only when [in_region] is true,
    [enabled] is true and [status] is [Stop] (in which case it does);
    a holder whose status is [Start] is left unchanged, so that no
    activation goes from [Start] to [Stop]; and on Python 3, where the
    module that holds the text is refused, no activation changes the
    holder at all. *)
Theorem C5_status_goes_from_stop_to_start_only
  (global_i : option Z) (interp : Interpreter)
  (getitem_box : BlenderObjectPositionTrigger -> result Box)
  (global_group : string -> option (list string))
  (self : BlenderObjectPositionTrigger) (scene : gmap string (list Q))
  (h : StateHolder) :
  exists h' : StateHolder,
    fst (detect_event global_i interp getitem_box global_group self scene
           (properties h)) = properties h'
    /\ holder_enabled h' = holder_enabled h
    /\ (h' = h
        \/ (in_region_of global_i interp getitem_box global_group
              self scene = Ok true
            /\ holder_enabled h = true
            /\ holder_status h = Stop
            /\ holder_status h' = Start))
    /\ (in_region_of global_i interp getitem_box global_group self scene
        = Ok true ->
        holder_enabled h = true -> holder_status h = Stop ->
        holder_status h' = Start)
    /\ (holder_status h = Start -> h' = h)
    /\ (interp = Python3 -> h' = h).
Proof.
  pose proof (in_region_python3 global_i getitem_box global_group
                self scene) as [Hpy3 _].
  unfold detect_event.
  destruct (in_region_of global_i interp getitem_box global_group
              self scene) as [[|]|e] eqn:Hreg.
  - destruct h as [en st].
    change (Py.getitem (properties {| holder_enabled := en;
                                      holder_status := st |}) "enabled")
      with (Ok (VBool en) : result value).
    change (Py.getitem (properties {| holder_enabled := en;
                                      holder_status := st |}) "status")
      with (Ok (VStr (status_text st)) : result value).
    cbv beta iota. change (truthy (VBool en)) with en.
    destruct en, st; cbn [eq_str status_text String.eqb fst].
    + exists {| holder_enabled := true; holder_status := Start |}.
      split; [apply (properties_started
                       {| holder_enabled := true; holder_status := Stop |})|].
      split; [done|]. split; [right; done|]. split; [done|].
      split; [discriminate|].
      intros ->. rewrite Hreg in Hpy3. discriminate.
    + exists {| holder_enabled := true; holder_status := Start |}.
      repeat split; try done; try (by left); discriminate.
    + exists {| holder_enabled := false; holder_status := Stop |}.
      repeat split; try done; try (by left); discriminate.
    + exists {| holder_enabled := false; holder_status := Start |}.
      repeat split; try done; try (by left); discriminate.
  - exists h. repeat split; try done; try (by left); discriminate.
  - exists h. repeat split; try done; try (by left); discriminate.
Qed.

(** The transition does happen where the text can run: read with
    [corners] as the list of pairs and with [i] bound to the first
    axis by the module, an object inside the box starts an enabled,
    stopped holder; and on Python 3 the same activation raises
    [SyntaxError] and leaves the holder stopped. *)
Remark detect_event_at_the_sample_box :
  let stopped := {| holder_enabled := true; holder_status := Stop |} in
  let started := {| holder_enabled := true; holder_status := Start |} in
  detect_event (Some 0) Python2 Sample.self_box Sample.no_group
    (Sample.trigger "Inside" ["object_in"] true) Sample.scene
    (properties stopped)
  = (properties started, Ok tt)
  /\ detect_event (Some 0) Python3 Sample.self_box Sample.no_group
       (Sample.trigger "Inside" ["object_in"] true) Sample.scene
       (properties stopped)
     = (properties stopped, Raise SyntaxError).
Proof. split; vm_compute; reflexivity. Qed.

(** [link_detection_bricks] raises [EBKAC] as long as the sensor or
    the controller has not been created. *)
Lemma link_detection_bricks_before_creation host_link b :
  enable_sensor b = None \/ detect_controller b = None ->
  link_detection_bricks host_link b = Raise EBKAC.
Proof.
  intros Hmiss. unfold link_detection_bricks.
  destruct (detect_controller b) as [c|]; [|reflexivity].
  destruct Hmiss as [->|?]; [reflexivity|discriminate].
Qed.

(** Once both are created, it returns the controller whenever the
    host's own link step succeeds. *)
Lemma link_detection_bricks_after_creation host_link self_name b :
  let b' := create_detection_controller self_name
              (create_enabled_sensor self_name b) in
  (forall c s, host_link c s = Ok tt) ->
  exists c, detect_controller b' = Some c
            /\ link_detection_bricks host_link b' = Ok c.
Proof.
  intros b' Hhost. eexists. split; [reflexivity|].
  unfold link_detection_bricks. simpl. by rewrite Hhost.
Qed.

End ObjectTriggerFacts.

(** ** Reading links from documents *)

Module W3DLinkFacts.

Import W3DLink.

Lemma lower_to_tagged r m :
  r <> -1 -> m <> -1 ->
  lower_to r m <> -1 /\ lower_to r m <= r /\ lower_to r m <= m
  /\ (lower_to r m = r \/ lower_to r m = m).
Proof.
  intros Hr Hm. unfold lower_to.
  destruct (m <? r) eqn:Hlt; simpl.
  - apply Z.ltb_lt in Hlt. lia.
  - apply Z.ltb_ge in Hlt.
    destruct (r =? -1) eqn:Heq; [apply Z.eqb_eq in Heq; lia|]. lia.
Qed.

(** Folding over tagged counts from a proper count keeps the least. *)
Lemma fold_lower_to_least tags : forall r,
  r <> -1 -> Forall (fun n => n <> -1) tags ->
  let x := fold_left lower_to tags r in
  x <> -1 /\ x <= r /\ Forall (fun n => x <= n) tags
  /\ (x = r \/ In x tags).
Proof.
  induction tags as [|m tags IH]; intros r Hr Htags; simpl.
  - repeat split; [done|lia|constructor|by left].
  - inversion Htags as [|? ? Hm Htl]; subst.
    destruct (lower_to_tagged r m Hr Hm) as (Hne & Hler & Hlem & Hor).
    destruct (IH (lower_to r m) Hne Htl) as (Hx & Hle & Hall & Hin).
    repeat split; [done|lia| |].
    + constructor; [lia|done].
    + destruct Hin as [Heq|Hin]; [|by right; right].
      destruct Hor as [Hor|Hor]; [left|right; left]; congruence.
Qed.

(** From the default [-1], the fold yields the least tagged count. *)
Lemma fold_lower_to_minimum tags :
  Forall (fun n => n <> -1) tags ->
  let x := fold_left lower_to tags (-1) in
  (tags = [] -> x = -1)
  /\ (tags <> [] -> In x tags /\ Forall (fun n => x <= n) tags).
Proof.
  intros Htags. destruct tags as [|m tags]; simpl.
  - split; [done|congruence].
  - split; [discriminate|]. intros _.
    inversion Htags as [|? ? Hm Htl]; subst.
    assert (Hfirst : lower_to (-1) m = m).
    { unfold lower_to. by rewrite orb_true_r. }
    rewrite Hfirst.
    destruct (fold_lower_to_least tags m Hm Htl) as (_ & Hle & Hall & Hin).
    split.
    + destruct Hin as [->|Hin]; [by left|by right].
    + constructor; [exact Hle|exact Hall].
Qed.

(** A tagged count of -1 is taken for the default by the next tagged
    entry, which is why the counts above are proper ones. *)
Remark lower_to_forgets_the_default :
  fold_left lower_to [-1; 3] (-1) = 3
  /\ fold_left lower_to [3; -1] (-1) = -1.
Proof. split; reflexivity. Qed.

Section Facts.

Context `{tools : XmlTools} `{codec : ActionCodec} `{conv : Builtins}
        `{blender : !Activators}.

Lemma link_set_actions_same (link : Link) :
  set_actions (actions link) link = link.
Proof. by destruct link. Qed.

Lemma dict_get_append_eq {V} (k : Z) (v : V) d :
  dict_get k (dict_append k v d) = dict_get k d ++ [v].
Proof.
  induction d as [|[k' vs] d IH]; simpl.
  - by rewrite Z.eqb_refl.
  - destruct (k' =? k) eqn:Hk; simpl; rewrite Hk; [done|exact IH].
Qed.

Lemma dict_get_append_ne {V} (k k' : Z) (v : V) d :
  k' <> k -> dict_get k' (dict_append k v d) = dict_get k' d.
Proof.
  intros Hne. induction d as [|[k0 vs] d IH]; simpl.
  - destruct (k =? k') eqn:Hk; [apply Z.eqb_eq in Hk; congruence|done].
  - destruct (k0 =? k) eqn:Hk; simpl.
    + apply Z.eqb_eq in Hk. subst k0.
      destruct (k =? k') eqn:Hk'; [apply Z.eqb_eq in Hk'; congruence|done].
    + destruct (k0 =? k'); [done|exact IH].
Qed.

Lemma dict_get_append_all_eq {V} (k : Z) (vs : list V) d :
  dict_get k (append_all k vs d) = dict_get k d ++ vs.
Proof.
  unfold append_all. revert d.
  induction vs as [|v vs IH]; intros d; simpl.
  - by rewrite app_nil_r.
  - rewrite IH, dict_get_append_eq. by rewrite <- app_assoc.
Qed.

Lemma dict_get_append_all_ne {V} (k k' : Z) (vs : list V) d :
  k' <> k -> dict_get k' (append_all k vs d) = dict_get k' d.
Proof.
  intros Hne. unfold append_all. revert d.
  induction vs as [|v vs IH]; intros d; simpl; [done|].
  by rewrite IH, dict_get_append_ne.
Qed.

(** Filing the children of a node whose actions all parse. *)
Lemma file_children_ok (n : Z) cs : forall (link : Link) acts,
  mapM action_fromXML
    (List.filter (fun c => negb (String.eqb (Xml.tag c) "Clicks")) cs)
  = Ok acts ->
  foldM (file_child n) link cs
  = Ok (set_actions (append_all n acts (actions link)) link).
Proof.
  induction cs as [|c cs IH]; intros link acts Hacts; simpl in *.
  - injection Hacts as <-. simpl. by rewrite link_set_actions_same.
  - unfold file_child at 1.
    destruct (String.eqb (Xml.tag c) "Clicks"); simpl in *.
    + by apply IH.
    + destruct (action_fromXML c) as [a|e]; simpl in *; [|discriminate].
      destruct (mapM action_fromXML _) as [acts'|e] eqn:Hrest;
        simpl in *; [|discriminate].
      injection Hacts as <-. by rewrite (IH _ acts').
Qed.

(** Filing never touches [reset]. *)
Lemma file_children_reset (n : Z) cs : forall (link link' : Link),
  foldM (file_child n) link cs = Ok link' -> reset link' = reset link.
Proof.
  induction cs as [|c cs IH]; intros link link' Hrun; simpl in *.
  - by injection Hrun as <-.
  - apply bind_ok_inv in Hrun as (link1 & Hc & Hrest).
    apply IH in Hrest. rewrite Hrest. unfold file_child in Hc.
    destruct (String.eqb (Xml.tag c) "Clicks"); [by injection Hc as <-|].
    apply bind_ok_inv in Hc as (a & _ & Hc). by injection Hc as <-.
Qed.

(** What reading [Clicks] does to [reset]. *)
Lemma read_clicks_reset (link link' : Link) node n :
  read_clicks link node = Ok (n, link') ->
  reset link'
  = match reset_tag node with
    | Some m => lower_to (reset link) m
    | None => reset link
    end.
Proof.
  unfold read_clicks, reset_tag, num_clicks_node, lower_to.
  destruct (Xml.find "Clicks" node) as [cn|]; simpl;
    [|intros [= <- <-]; done].
  destruct (Xml.find "NumClicks" cn) as [nc|]; simpl;
    [|intros [= <- <-]; done].
  destruct (Xml.attrib nc !! "num_clicks" ≫= py_int) as [m|]; simpl;
    [|discriminate].
  destruct (Xml.attrib nc !! "reset") as [r|]; simpl;
    [|intros [= <- <-]; done].
  destruct (text2bool (Some r)) as [[|]|e]; simpl.
  - destruct ((m <? reset link) || (reset link =? -1));
      intros [= <- <-]; done.
  - intros [= <- <-]; done.
  - destruct e; try discriminate. intros [= <- <-]; done.
Qed.

Lemma read_actions_node_reset (link link' : Link) node :
  read_actions_node link node = Ok link' ->
  reset link'
  = match reset_tag node with
    | Some m => lower_to (reset link) m
    | None => reset link
    end.
Proof.
  unfold read_actions_node. intros Hrun.
  apply bind_ok_inv in Hrun as ([n link1] & Hclicks & Hfile).
  apply file_children_reset in Hfile. rewrite Hfile.
  by apply read_clicks_reset in Hclicks.
Qed.

Lemma read_all_actions_reset nodes : forall (link link' : Link),
  foldM read_actions_node link nodes = Ok link' ->
  reset link' = fold_left lower_to (omap reset_tag nodes) (reset link).
Proof.
  induction nodes as [|node nodes IH]; intros link link' Hrun; simpl in *.
  - by injection Hrun as <-.
  - apply bind_ok_inv in Hrun as (link1 & Hnode & Hrest).
    apply IH in Hrest. rewrite Hrest.
    apply read_actions_node_reset in Hnode. rewrite Hnode.
    by destruct (reset_tag node).
Qed.

(** The [reset] of a link that was read is the fold of its document's
    reset tags. *)
Lemma fromXML_reset root link_node (link : Link) :
  Xml.find "Link" root = Some link_node ->
  fromXML root = Ok link ->
  reset link = fold_left lower_to (reset_tags link_node) (-1).
Proof.
  intros Hfind Hrun. unfold fromXML in Hrun. rewrite Hfind in Hrun.
  repeat (apply bind_ok_inv in Hrun as (? & _ & Hrun)).
  apply read_all_actions_reset in Hrun. exact Hrun.
Qed.

Lemma fold_lower_to_permutation tags tags' :
  Forall (fun n => n <> -1) tags -> Permutation tags' tags ->
  fold_left lower_to tags' (-1) = fold_left lower_to tags (-1).
Proof.
  intros Htags Hperm.
  assert (Htags' : Forall (fun n => n <> -1) tags').
  { eapply Permutation_Forall; [symmetry; exact Hperm|exact Htags]. }
  destruct (fold_lower_to_minimum tags Htags) as [Hnil Hmin].
  destruct (fold_lower_to_minimum tags' Htags') as [Hnil' Hmin'].
  destruct tags as [|m tags0] eqn:Etags.
  - apply Permutation_sym, Permutation_nil in Hperm. subst tags'. done.
  - rewrite <- Etags in *.
    assert (Hne : tags <> []) by (rewrite Etags; discriminate).
    assert (Hne' : tags' <> []).
    { intros ->. apply Permutation_nil in Hperm. congruence. }
    destruct (Hmin Hne) as [Hin Hall]. destruct (Hmin' Hne') as [Hin' Hall'].
    rewrite List.Forall_forall in Hall, Hall'.
    pose proof (Hall _ (Permutation_in _ Hperm Hin')).
    pose proof (Hall' _ (Permutation_in _ (Permutation_sym Hperm) Hin)).
    lia.
Qed.

(** What filing the children of a node returns. *)
Lemma file_children_inv n cs : forall (M M' : Link),
  foldM (file_child n) M cs = Ok M' ->
  exists acts,
    mapM action_fromXML
      (List.filter (fun c => negb (String.eqb (Xml.tag c) "Clicks")) cs)
    = Ok acts
    /\ M' = set_actions (append_all n acts (actions M)) M
    /\ (List.filter (fun c => negb (String.eqb (Xml.tag c) "Clicks")) cs
        <> [] -> acts <> []).
Proof.
  induction cs as [|c cs IH]; intros M M' Hrun; simpl in *.
  - injection Hrun as <-. exists []. simpl.
    by rewrite link_set_actions_same.
  - apply bind_ok_inv in Hrun as (M1 & Hc & Hrest). unfold file_child in Hc.
    destruct (String.eqb (Xml.tag c) "Clicks"); simpl.
    + injection Hc as <-. by apply IH.
    + apply bind_ok_inv in Hc as (a & Ha & Hc). injection Hc as <-.
      apply IH in Hrest as (acts & Hacts & -> & _).
      exists (a :: acts). rewrite Ha, Hacts. simpl. done.
Qed.

Lemma read_clicks_inv (M M1 : Link) node n :
  read_clicks M node = Ok (n, M1) ->
  click_count node = Some n /\ actions M1 = actions M /\ same_items M M1.
Proof.
  unfold read_clicks, click_count, num_clicks_node, same_items.
  destruct (Xml.find "Clicks" node) as [cn|]; simpl;
    [|intros [= <- <-]; done].
  destruct (Xml.find "NumClicks" cn) as [nc|]; simpl;
    [|intros [= <- <-]; done].
  destruct (Xml.attrib nc !! "num_clicks" ≫= py_int) as [m|]; simpl;
    [|discriminate].
  destruct (Xml.attrib nc !! "reset") as [r|];
    [|intros [= <- <-]; done].
  destruct (text2bool (Some r)) as [[|]|e].
  - destruct ((m <? reset M) || (reset M =? -1)); intros [= <- <-]; done.
  - intros [= <- <-]; done.
  - destruct e; try discriminate. intros [= <- <-]; done.
Qed.

Lemma read_actions_node_inv (M M' : Link) node :
  read_actions_node M node = Ok M' ->
  exists n acts,
    click_count node = Some n
    /\ mapM action_fromXML (action_children node) = Ok acts
    /\ actions M' = append_all n acts (actions M)
    /\ same_items M M'.
Proof.
  unfold read_actions_node. intros Hrun.
  apply bind_ok_inv in Hrun as ([n M1] & Hclicks & Hfile).
  apply read_clicks_inv in Hclicks as (Hcount & Hacts & Hsame).
  apply file_children_inv in Hfile as (acts & Hparse & -> & _).
  exists n, acts. simpl. rewrite Hacts. repeat split; try done;
    apply Hsame.
Qed.

Lemma read_all_actions_inv nodes : forall (M M' : Link),
  foldM read_actions_node M nodes = Ok M' ->
  same_items M M'
  /\ forall k,
       dict_get k (actions M')
       = dict_get k (actions M)
         ++ flat_map
              (fun node =>
                 if bool_decide (click_count node = Some k)
                 then bound_actions node else [])
              nodes.
Proof.
  induction nodes as [|node nodes IH]; intros M M' Hrun; simpl in *.
  - injection Hrun as <-. split; [by repeat split|].
    intros k. by rewrite app_nil_r.
  - apply bind_ok_inv in Hrun as (M1 & Hnode & Hrest).
    apply read_actions_node_inv in Hnode
      as (n & acts & Hcount & Hparse & Hacts & Hsame).
    apply IH in Hrest as (Hsame' & Hget). split.
    + unfold same_items in *. intuition congruence.
    + intros k. rewrite Hget, Hacts, Hcount. unfold bound_actions.
      rewrite Hparse.
      destruct (decide (n = k)) as [->|Hne].
      * rewrite bool_decide_eq_true_2 by done.
        rewrite dict_get_append_all_eq.
        by rewrite <- app_assoc.
      * rewrite bool_decide_eq_false_2 by congruence.
        by rewrite dict_get_append_all_ne.
Qed.

(** The actions of a link that was read are those that its document
    binds, count by count. *)
Lemma fromXML_actions root link_node (link : Link) :
  Xml.find "Link" root = Some link_node ->
  fromXML root = Ok link ->
  forall k, dict_get k (actions link) = bound_to k link_node.
Proof.
  intros Hfind Hrun k. unfold fromXML in Hrun. rewrite Hfind in Hrun.
  repeat (apply bind_ok_inv in Hrun as (? & _ & Hrun)).
  apply read_all_actions_inv in Hrun as (_ & Hget).
  by rewrite Hget.
Qed.

(** Whether an entry is read does not depend on what was read before
    it. *)
Lemma file_children_any n n' cs : forall (M M' : Link),
  is_ok (foldM (file_child n) M cs) = is_ok (foldM (file_child n') M' cs).
Proof.
  induction cs as [|c cs IH]; intros M M'; simpl; [done|].
  unfold file_child at 1 3.
  destruct (String.eqb (Xml.tag c) "Clicks"); simpl; [apply IH|].
  destruct (action_fromXML c); simpl; [apply IH|done].
Qed.

Lemma read_actions_node_any (M M' : Link) node :
  is_ok (read_actions_node M node) = is_ok (read_actions_node M' node).
Proof.
  unfold read_actions_node, read_clicks.
  destruct (Xml.find "Clicks" node) as [cn|]; simpl;
    [|apply file_children_any].
  destruct (Xml.find "NumClicks" cn) as [nc|]; simpl;
    [|apply file_children_any].
  destruct (Xml.attrib nc !! "num_clicks" ≫= py_int) as [m|]; simpl;
    [|done].
  destruct (Xml.attrib nc !! "reset") as [r|]; simpl;
    [|apply file_children_any].
  destruct (text2bool (Some r)) as [[|]|e]; simpl.
  - destruct ((m <? reset M) || (reset M =? -1)),
             ((m <? reset M') || (reset M' =? -1)); simpl;
      apply file_children_any.
  - apply file_children_any.
  - destruct e; simpl; try done; apply file_children_any.
Qed.

Lemma foldM_all_ok {S B} (f : S -> B -> result S) xs :
  (forall x, In x xs -> forall s, is_ok (f s x) = true) ->
  forall s, is_ok (foldM f s xs) = true.
Proof.
  induction xs as [|x xs IH]; intros Hall s; simpl; [done|].
  pose proof (Hall x (or_introl eq_refl) s) as Hx.
  destruct (f s x) as [s'|e]; [|discriminate]. simpl.
  apply IH. intros y Hy. apply Hall. by right.
Qed.

(** An entry without click data is read, whatever was read before. *)
Lemma read_without_click_data (M : Link) node :
  without_click_data node -> is_ok (read_actions_node M node) = true.
Proof.
  intros [Hparse Hkind].
  destruct (mapM action_fromXML (action_children node)) as [acts|e]
    eqn:Hacts; [|discriminate].
  unfold read_actions_node, read_clicks. unfold num_clicks_node in Hkind.
  destruct (Xml.find "Clicks" node) as [cn|]; simpl in *.
  - destruct (Xml.find "NumClicks" cn) as [nc|]; simpl in *.
    + destruct Hkind as [?|(nc' & n & [= <-] & -> & ->)]; [discriminate|].
      simpl. by rewrite (file_children_ok _ _ _ acts Hacts).
    + by rewrite (file_children_ok _ _ _ acts Hacts).
  - by rewrite (file_children_ok _ _ _ acts Hacts).
Qed.

(** An entry without click data tags no [reset]. *)
Lemma reset_tag_without_click_data node :
  without_click_data node -> reset_tag node = None.
Proof.
  intros [_ [Hnone|(nc & n & Hnc & Hn & Hreset)]]; unfold reset_tag.
  - by rewrite Hnone.
  - rewrite Hnc. simpl. rewrite Hn. simpl. by rewrite Hreset.
Qed.

(** The actions of an entry are a stretch of the actions bound to its
    click count. *)
Lemma bound_to_holds k link_node node :
  In node (Xml.findall "Actions" link_node) ->
  click_count node = Some k ->
  exists l1 l2, bound_to k link_node = l1 ++ bound_actions node ++ l2.
Proof.
  unfold bound_to. intros Hin Hcount.
  apply in_split in Hin as (before & after & ->).
  rewrite flat_map_app. simpl.
  rewrite bool_decide_eq_true_2 by done. eauto.
Qed.

(** C3: the [reset] of a link read by [fromXML] is the least of the
    click counts that its document tags [reset] (counts being proper
    ones, different from the any-count value -1), hence the same for
    every order of the entries; with no tagged entry it is the
    default -1. *)
Theorem C3_reset_is_least_tagged_count root link_node (link : Link) :
  Xml.find "Link" root = Some link_node ->
  fromXML root = Ok link ->
  Forall (fun n => n <> -1) (reset_tags link_node) ->
  (reset_tags link_node = [] -> reset link = -1)
  /\ (reset_tags link_node <> [] ->
      In (reset link) (reset_tags link_node)
      /\ Forall (fun n => reset link <= n) (reset_tags link_node))
  /\ (forall root' link_node' (link' : Link),
        Xml.find "Link" root' = Some link_node' ->
        fromXML root' = Ok link' ->
        Permutation (reset_tags link_node') (reset_tags link_node) ->
        reset link' = reset link).
Proof.
  intros Hfind Hrun Htags.
  rewrite (fromXML_reset _ _ _ Hfind Hrun).
  destruct (fold_lower_to_minimum _ Htags) as [Hnil Hmin].
  split; [exact Hnil|]. split; [exact Hmin|].
  intros root' link_node' link' Hfind' Hrun' Hperm.
  rewrite (fromXML_reset _ _ _ Hfind' Hrun').
  by apply fold_lower_to_permutation.
Qed.

(** C9, for links: a [LinkRoot] without a [Link] child is refused. *)
Lemma fromXML_without_link root :
  Xml.find "Link" root = None ->
  fromXML root = (Raise BadW3DXML : result Link).
Proof. intros Hfind. unfold fromXML. by rewrite Hfind. Qed.

(** When the action children of an [Actions] node parse, a node
    without [Clicks], or whose [Clicks] has no [NumClicks], is read
    without an exception, its actions going under the key -1 and
    nowhere else, [reset] staying as it was; and a [NumClicks] with a
    click count but no [reset] attribute is read without an exception
    too, the actions going under its count and [reset] staying as it
    was. *)
Lemma read_actions_node_without_click_data
  (link : Link) (node : Xml.Element) (acts : list W3DAction) :
  mapM action_fromXML (action_children node) = Ok acts ->
  ((Xml.find "Clicks" node = None
    \/ exists cn, Xml.find "Clicks" node = Some cn
                  /\ Xml.find "NumClicks" cn = None) ->
   exists link' : Link,
     read_actions_node link node = Ok link'
     /\ reset link' = reset link
     /\ dict_get (-1) (actions link') = dict_get (-1) (actions link) ++ acts
     /\ forall k, k <> -1 ->
          dict_get k (actions link') = dict_get k (actions link))
  /\ (forall cn nc n,
        Xml.find "Clicks" node = Some cn ->
        Xml.find "NumClicks" cn = Some nc ->
        Xml.attrib nc !! "num_clicks" ≫= py_int = Some n ->
        Xml.attrib nc !! "reset" = None ->
        exists link' : Link,
          read_actions_node link node = Ok link'
          /\ reset link' = reset link
          /\ dict_get n (actions link') = dict_get n (actions link) ++ acts
          /\ forall k, k <> n ->
               dict_get k (actions link') = dict_get k (actions link)).
Proof.
  intros Hacts. split.
  - intros Hno.
    assert (Hclicks : read_clicks link node = Ok (-1, link)).
    { unfold read_clicks.
      destruct Hno as [->|(cn & -> & ->)]; reflexivity. }
    exists (set_actions (append_all (-1) acts (actions link)) link).
    unfold read_actions_node. rewrite Hclicks. simpl.
    rewrite (file_children_ok _ _ _ acts Hacts). simpl.
    split; [done|]. split; [done|].
    split; [apply dict_get_append_all_eq|].
    intros k Hk. by apply dict_get_append_all_ne.
  - intros cn nc n Hcn Hnc Hn Hreset.
    assert (Hclicks : read_clicks link node = Ok (n, link)).
    { unfold read_clicks. by rewrite Hcn, Hnc, Hn, Hreset. }
    exists (set_actions (append_all n acts (actions link)) link).
    unfold read_actions_node. rewrite Hclicks. simpl.
    rewrite (file_children_ok _ _ _ acts Hacts). simpl.
    split; [done|]. split; [done|].
    split; [apply dict_get_append_all_eq|].
    intros k Hk. by apply dict_get_append_all_ne.
Qed.

(** C10: [fromXML] reads a document whose entries are without click
    data (no [Clicks] child, a [Clicks] child without [NumClicks], or
    a [NumClicks] with a count and no [reset] attribute), alone or
    among entries that are read: it does not raise; the actions of
    an entry without [NumClicks] are filed under the key -1, in
    document order, and those of an entry with a count under its
    count; an entry without click data tags no [reset], so that the
    link's [reset] is what the other entries make it, and the default
    -1 when every entry is without click data. *)
Theorem C10_missing_click_data_is_accepted
  (root link_node : Xml.Element) (b1 b2 : bool) (c1 c2 : list Z) :
  Xml.find "Link" root = Some link_node ->
  (let* t := find_xml_text link_node "Enabled" in text2bool t) = Ok b1 ->
  (let* t := find_xml_text link_node "RemainEnabled" in text2bool t)
  = Ok b2 ->
  read_color [0; 128; 255] (Xml.find "EnabledColor" link_node) = Ok c1 ->
  read_color [255; 0; 0] (Xml.find "SelectedColor" link_node) = Ok c2 ->
  Forall (fun node =>
            without_click_data node
            \/ is_ok (read_actions_node new_link node) = true)
         (Xml.findall "Actions" link_node) ->
  exists link : Link,
    fromXML root = Ok link
    /\ (forall node,
          In node (Xml.findall "Actions" link_node) ->
          num_clicks_node node = None ->
          exists l1 l2,
            dict_get (-1) (actions link) = l1 ++ bound_actions node ++ l2)
    /\ (forall node nc n,
          In node (Xml.findall "Actions" link_node) ->
          num_clicks_node node = Some nc ->
          Xml.attrib nc !! "num_clicks" ≫= py_int = Some n ->
          exists l1 l2,
            dict_get n (actions link) = l1 ++ bound_actions node ++ l2)
    /\ (forall node, without_click_data node -> reset_tag node = None)
    /\ reset link = doc_reset link_node
    /\ (Forall without_click_data (Xml.findall "Actions" link_node) ->
        reset link = -1).
Proof.
  intros Hfind Hen Hren Hc1 Hc2 Hentries.
  assert (Hok : is_ok (fromXML root) = true).
  { unfold fromXML. rewrite Hfind.
    destruct (find_xml_text link_node "Enabled") as [t1|e1];
      [cbn [Py.bind] in Hen|discriminate].
    destruct (find_xml_text link_node "RemainEnabled") as [t2|e2];
      [cbn [Py.bind] in Hren|discriminate].
    cbn [Py.bind]. rewrite Hen. cbn [Py.bind]. rewrite Hren.
    cbn [Py.bind].
    change (read_color [0; 128; 255] (Xml.find "EnabledColor" link_node))
      with (read_color
              (enabled_color
                 (set_remain_enabled b2 (set_enabled b1 new_link)))
              (Xml.find "EnabledColor" link_node)) in Hc1.
    rewrite Hc1. cbn [Py.bind].
    change (read_color [255; 0; 0] (Xml.find "SelectedColor" link_node))
      with (read_color
              (selected_color
                 (set_enabled_color c1
                    (set_remain_enabled b2 (set_enabled b1 new_link))))
              (Xml.find "SelectedColor" link_node)) in Hc2.
    rewrite Hc2. cbn [Py.bind].
    apply foldM_all_ok. intros node Hin M.
    rewrite List.Forall_forall in Hentries.
    destruct (Hentries node Hin) as [Hw|Hr].
    - by apply read_without_click_data.
    - by rewrite (read_actions_node_any M new_link). }
  destruct (fromXML root) as [link|e] eqn:Hrun; [|discriminate].
  exists link. split; [done|].
  pose proof (fromXML_actions _ _ _ Hfind Hrun) as Hget.
  pose proof (fromXML_reset _ _ _ Hfind Hrun) as Hreset.
  split; [|split; [|split; [|split]]].
  - intros node Hin Hnone. rewrite Hget.
    apply bound_to_holds; [done|]. unfold click_count. by rewrite Hnone.
  - intros node nc n Hin Hnc Hn. rewrite Hget.
    apply bound_to_holds; [done|]. unfold click_count. by rewrite Hnc.
  - apply reset_tag_without_click_data.
  - exact Hreset.
  - intros Hall. rewrite Hreset. unfold reset_tags.
    assert (Hnone : omap reset_tag (Xml.findall "Actions" link_node) = []).
    { revert Hall. generalize (Xml.findall "Actions" link_node).
      intros nodes0 Hall. induction Hall as [|node nodes Hnode _ IH]; [done|].
      change (omap reset_tag (node :: nodes))
        with (match reset_tag node with
              | Some n => n :: omap reset_tag nodes
              | None => omap reset_tag nodes
              end).
      by rewrite (reset_tag_without_click_data _ Hnode). }
    by rewrite Hnone.
Qed.

End Facts.

#[local] Existing Instances Sample.xml_tools Sample.action_codec
  Sample.builtins Sample.name_validator Sample.activators.

(** The theorem at a document that tags the counts 5 and 3, and at the
    same entries in the other order. *)
Lemma C3_witness :
  reset_tags (Sample.link_node Sample.entries_5_3) = [5; 3]
  /\ (exists link : Link,
        fromXML (Sample.link_doc Sample.entries_5_3) = Ok link
        /\ reset link = 3)
  /\ (exists link' : Link,
        fromXML (Sample.link_doc Sample.entries_3_5) = Ok link'
        /\ reset link' = 3).
Proof.
  split; [vm_compute; reflexivity|].
  destruct (fromXML (Sample.link_doc Sample.entries_5_3)) as [link|e] eqn:Hrun;
    [|vm_compute in Hrun; discriminate].
  destruct (fromXML (Sample.link_doc Sample.entries_3_5)) as [link'|e] eqn:Hrun';
    [|vm_compute in Hrun'; discriminate].
  assert (Htags : reset_tags (Sample.link_node Sample.entries_5_3) = [5; 3])
    by (vm_compute; reflexivity).
  assert (Htags' : reset_tags (Sample.link_node Sample.entries_3_5) = [3; 5])
    by (vm_compute; reflexivity).
  destruct (C3_reset_is_least_tagged_count
              (Sample.link_doc Sample.entries_5_3)
              (Sample.link_node Sample.entries_5_3) link eq_refl Hrun)
    as (_ & Hmin & Hperm).
  { rewrite Htags. repeat constructor; lia. }
  destruct Hmin as [Hin Hall]; [rewrite Htags; discriminate|].
  rewrite Htags in Hin, Hall.
  assert (Hreset : reset link = 3).
  { inversion Hall as [|? ? H5 Hall']; subst.
    inversion Hall' as [|? ? H3 _]; subst.
    destruct Hin as [Hin|[Hin|[]]]; lia. }
  split; [exists link; done|].
  exists link'. split; [done|]. rewrite <- Hreset.
  apply (Hperm (Sample.link_doc Sample.entries_3_5)
               (Sample.link_node Sample.entries_3_5) link' eq_refl Hrun').
  rewrite Htags, Htags'. apply perm_swap.
Defined.

(** The claim as it is stated fails at two entries that tag the
    counts -1 and 3: read in this order they leave [reset] at 3, which
    is not the least tagged count, and read in the other order at -1. *)
Lemma C3_counterexample :
  exists link link' : Link,
    fromXML (Sample.link_doc Sample.entries_m1_3) = Ok link
    /\ fromXML (Sample.link_doc Sample.entries_3_m1) = Ok link'
    /\ reset_tags (Sample.link_node Sample.entries_m1_3) = [-1; 3]
    /\ Permutation (reset_tags (Sample.link_node Sample.entries_3_m1))
                   (reset_tags (Sample.link_node Sample.entries_m1_3))
    /\ reset link = 3
    /\ ~ Forall (fun n => reset link <= n)
           (reset_tags (Sample.link_node Sample.entries_m1_3))
    /\ reset link' = -1
    /\ reset link' <> reset link.
Proof.
  eexists. eexists.
  split; [vm_compute; reflexivity|]. split; [vm_compute; reflexivity|].
  split; [vm_compute; reflexivity|].
  split; [apply perm_swap|]. split; [reflexivity|].
  split; [|split; [reflexivity|discriminate]].
  intros Hall. inversion Hall as [|? ? Hle _]; subst.
  vm_compute in Hle. by apply Hle.
Qed.

(** The theorem at a document with an entry without [Clicks], an
    entry with all its click data, an entry whose [Clicks] is empty,
    and an entry whose [NumClicks] has no [reset] attribute. *)
Lemma C10_witness :
  exists link : Link,
    fromXML (Sample.link_doc Sample.entries_without_click_data) = Ok link
    /\ dict_get (-1) (actions link) = ["ObjectChange"; "MoveVR"]
    /\ dict_get 2 (actions link) = ["TimelineRef"]
    /\ reset link = 3.
Proof.
  destruct (C10_missing_click_data_is_accepted
              (codec := Sample.action_codec)
              (Sample.link_doc Sample.entries_without_click_data)
              (Sample.link_node Sample.entries_without_click_data)
              true true [0; 128; 255] [255; 0; 0])
    as (link & Hrun & _ & _ & _ & Hreset & _); try reflexivity.
  - change (Xml.findall "Actions"
              (Sample.link_node Sample.entries_without_click_data))
      with Sample.entries_without_click_data.
    constructor; [|constructor; [|constructor; [|constructor;
      [|constructor]]]].
    + left. split; [reflexivity|by left].
    + right. reflexivity.
    + left. split; [reflexivity|by left].
    + left. split; [reflexivity|]. right.
      exists (Xml.node "NumClicks" (<["num_clicks" := "2"]> ∅) []), 2.
      repeat split; reflexivity.
  - exists link. split; [exact Hrun|].
    vm_compute in Hrun. injection Hrun as <-.
    repeat split; reflexivity.
Defined.

End W3DLinkFacts.

(** ** Sorted lists *)

Module SortedListFacts.

Import SortedList.

Lemma Qlt_bool_true (x y : Q) : Qlt_bool x y = true <-> (x < y)%Q.
Proof.
  unfold Qlt_bool. rewrite negb_true_iff. split.
  - intros Hle. apply Qnot_le_lt. intros Hyx.
    apply Qle_bool_iff in Hyx. congruence.
  - intros Hlt. destruct (Qle_bool y x) eqn:Hle; [|done].
    apply Qle_bool_iff in Hle. exfalso. by apply (Qlt_not_le x y).
Qed.

Lemma Qlt_bool_false (x y : Q) : Qlt_bool x y = false <-> (y <= x)%Q.
Proof.
  unfold Qlt_bool. rewrite negb_false_iff. apply Qle_bool_iff.
Qed.

(** *** The order of floats *)

Lemma float_lt_irrefl x : float_lt x x = false.
Proof.
  destruct x as [a|[|]|]; simpl; try done.
  apply Qlt_bool_false. apply Qle_refl.
Qed.

Lemma float_lt_asym x y : float_lt x y = true -> float_lt y x = false.
Proof.
  destruct x as [a|[|]|], y as [b|[|]|]; simpl; try done.
  intros Hlt. apply Qlt_bool_true in Hlt. apply Qlt_bool_false.
  by apply Qlt_le_weak.
Qed.

(** What is not before [y] is not before what is before [y]. *)
Lemma float_lt_keeps x y z :
  float_lt x y = true -> float_lt z y = false -> float_lt z x = false.
Proof.
  destruct x as [a|[|]|], y as [b|[|]|], z as [c|[|]|]; simpl; try done.
  intros Hab Hcb. apply Qlt_bool_true in Hab. apply Qlt_bool_false in Hcb.
  apply Qlt_bool_false. apply Qlt_le_weak. by eapply Qlt_le_trans.
Qed.

(** Equal floats compare alike. *)
Lemma float_eq_lt x x' y :
  float_eq x x' = true -> float_lt x y = float_lt x' y.
Proof.
  destruct x as [a|[|]|], x' as [a'|[|]|], y as [b|[|]|]; simpl; try done.
  intros Heq. apply Qeq_bool_iff in Heq.
  destruct (Qlt_bool a b) eqn:H1, (Qlt_bool a' b) eqn:H2; try done.
  - apply Qlt_bool_true in H1. apply Qlt_bool_false in H2.
    rewrite Heq in H1. exfalso. by apply (Qlt_not_le a' b).
  - apply Qlt_bool_false in H1. apply Qlt_bool_true in H2.
    rewrite Heq in H1. exfalso. by apply (Qlt_not_le a' b).
Qed.

(** Among numbers, what is not after is at most. *)
Lemma float_le_of_not_lt x y :
  is_nan x = false -> is_nan y = false ->
  float_lt y x = false -> float_le x y = true.
Proof.
  unfold float_le.
  destruct x as [a|[|]|], y as [b|[|]|]; simpl; try done.
  intros _ _ Hba. apply Qlt_bool_false in Hba.
  destruct (Qlt_bool a b) eqn:Hab; [done|]. simpl.
  apply Qlt_bool_false in Hab. apply Qeq_bool_iff. by apply Qle_antisym.
Qed.

Lemma float_le_nan x y :
  float_le x y = true -> is_nan x = false /\ is_nan y = false.
Proof. by destruct x as [a|[|]|], y as [b|[|]|]. Qed.

Section Facts.

Context {A : Type}.

Implicit Types (x y : pyfloat * A) (l : list (pyfloat * A)).

Lemma add_perm x l : Permutation (add x l) (x :: l).
Proof.
  induction l as [|y l IH]; simpl; [done|].
  destruct (float_lt (fst x) (fst y)); [done|].
  rewrite IH. apply perm_swap.
Qed.

(** An insertion puts no pair before a pair of a smaller time. *)
Lemma add_sorted x l :
  StronglySorted not_after l -> StronglySorted not_after (add x l).
Proof.
  induction l as [|y l IH]; intros Hs; simpl.
  - repeat constructor.
  - inversion Hs as [|? ? Hl Hall]; subst.
    destruct (float_lt (fst x) (fst y)) eqn:Hlt.
    + constructor; [exact Hs|].
      constructor; [by apply float_lt_asym|].
      eapply Forall_impl; [exact Hall|]. intros z Hz. unfold not_after in *.
      by eapply float_lt_keeps.
    + constructor; [by apply IH|].
      eapply Permutation_Forall; [symmetry; apply add_perm|].
      by constructor.
Qed.

(** Among numbers, such a list is in non-decreasing order. *)
Lemma sorted_numbers l :
  StronglySorted not_after l -> no_nan l -> StronglySorted le_time l.
Proof.
  induction 1 as [|x l Hs IH Hall]; intros Hnum; [constructor|].
  inversion Hnum as [|? ? Hx Hl]; subst.
  constructor; [by apply IH|].
  rewrite List.Forall_forall in Hall, Hl. apply List.Forall_forall.
  intros z Hz. apply float_le_of_not_lt; [done|by apply Hl|by apply Hall].
Qed.

Lemma at_time_none_later t x y l :
  float_lt (fst x) (fst y) = true ->
  float_eq (fst x) t = true ->
  Forall (fun z => float_lt (fst z) (fst y) = false) l ->
  at_time t l = [].
Proof.
  intros Hlt Heq. induction 1 as [|z l Hz _ IH]; simpl; [done|].
  destruct (float_eq (fst z) t) eqn:Hzt; [|exact IH].
  rewrite (float_eq_lt _ _ _ Hzt) in Hz.
  rewrite (float_eq_lt _ _ _ Heq) in Hlt. congruence.
Qed.

Lemma at_time_app t l l' :
  at_time t (l ++ l') = at_time t l ++ at_time t l'.
Proof. apply List.filter_app. Qed.

(** A pair goes after the pairs of its own time. *)
Lemma add_at_time t x l :
  StronglySorted not_after l ->
  at_time t (add x l) = at_time t l ++ at_time t [x].
Proof.
  induction l as [|y l IH]; intros Hs; [done|].
  inversion Hs as [|? ? Hl Hall]; subst. simpl add.
  destruct (float_lt (fst x) (fst y)) eqn:Hlt.
  - assert (Hlater : float_eq (fst x) t = true -> at_time t (y :: l) = []).
    { intros Heq. apply (at_time_none_later t x y); [done|done|].
      constructor; [apply float_lt_irrefl|exact Hall]. }
    unfold at_time in *. simpl List.filter at 1 3.
    destruct (float_eq (fst x) t) eqn:Heq.
    + specialize (Hlater eq_refl). simpl in *. by rewrite Hlater.
    + by rewrite app_nil_r.
  - specialize (IH Hl). unfold at_time in *. simpl.
    destruct (float_eq (fst y) t); simpl; by rewrite IH.
Qed.

(** A pair that is before no pair of the list goes last. *)
Lemma add_last x l :
  Forall (fun z => not_after z x) l -> add x l = l ++ [x].
Proof.
  induction 1 as [|z l Hz _ IH]; simpl; [done|].
  unfold not_after in Hz. by rewrite Hz, IH.
Qed.

(** Inserting a sequence keeps the pairs, keeps the pairs of any one
    time in their order of insertion, and puts no pair before a pair
    of a smaller time. *)
Lemma inserts_keep (xs : list (pyfloat * A)) : forall l,
  StronglySorted not_after l ->
  StronglySorted not_after (fold_left (fun l x => add x l) xs l)
  /\ Permutation (fold_left (fun l x => add x l) xs l) (l ++ xs)
  /\ forall t, at_time t (fold_left (fun l x => add x l) xs l)
               = at_time t (l ++ xs).
Proof.
  induction xs as [|x xs IH]; intros l Hs; simpl.
  - rewrite app_nil_r. by repeat split.
  - destruct (IH (add x l) (add_sorted x l Hs)) as (Hsorted & Hperm & Htime).
    split; [exact Hsorted|]. split.
    + rewrite Hperm, add_perm. simpl. apply Permutation_middle.
    + intros t. rewrite Htime.
      change (x :: xs) with ([x] ++ xs).
      rewrite !at_time_app, add_at_time by done. by rewrite <- app_assoc.
Qed.

(** Inserting a sequence of numbers into a sorted list sorts it
    stably. *)
Lemma inserts_stable (xs : list (pyfloat * A)) l :
  StronglySorted not_after l -> no_nan (l ++ xs) ->
  stable_sorting (l ++ xs) (fold_left (fun l x => add x l) xs l).
Proof.
  intros Hs Hnum.
  destruct (inserts_keep xs l Hs) as (Hsorted & Hperm & Htime).
  split; [|done]. apply sorted_numbers; [done|].
  eapply Permutation_Forall; [symmetry; exact Hperm|exact Hnum].
Qed.

Lemma of_list_stable (xs : list (pyfloat * A)) :
  no_nan xs -> stable_sorting xs (of_list xs).
Proof. apply (inserts_stable xs []). constructor. Qed.


(** Inserting the items of a sorted list in order rebuilds it. *)
Lemma inserts_sorted (ys : list (pyfloat * A)) : forall l,
  StronglySorted not_after (l ++ ys) ->
  fold_left (fun l x => add x l) ys l = l ++ ys.
Proof.
  induction ys as [|y ys IH]; intros l Hs; simpl.
  - by rewrite app_nil_r.
  - assert (Hlast : add y l = l ++ [y]).
    { apply add_last. clear IH. induction l as [|z l IHl]; [done|].
      simpl in Hs. inversion Hs as [|? ? Hl Hall]; subst.
      constructor; [|by apply IHl].
      rewrite Forall_app in Hall. destruct Hall as [_ Hall].
      by inversion Hall. }
    rewrite Hlast, IH; rewrite <- app_assoc; done.
Qed.

Lemma of_list_sorted l : StronglySorted not_after l -> of_list l = l.
Proof. intros Hs. by apply (inserts_sorted l []). Qed.

(** A list that holds nan and a number is in no order. *)
Lemma nan_is_never_sorted (a b : A) (t : pyfloat) l :
  Permutation l [(NaN, a); (t, b)] -> ~ StronglySorted le_time l.
Proof.
  intros Hperm Hs. apply Permutation_sym in Hperm.
  apply Permutation_length_2_inv in Hperm as [->| ->];
    inversion Hs as [|? ? _ Hall]; subst;
    inversion Hall as [|? ? Hle _]; subst;
    apply float_le_nan in Hle as [? ?]; done.
Qed.

End Facts.

End SortedListFacts.

(** ** Timelines *)

Module W3DTimelineFacts.

Import SortedList SortedListFacts W3DTimeline.

Lemma filter_all {B} (f : B -> bool) (l : list B) :
  Forall (fun x => f x = true) l -> List.filter f l = l.
Proof.
  induction 1 as [|x l Hx _ IH]; simpl; [done|]. by rewrite Hx, IH.
Qed.

(** A loop that meets an item on which its body always raises does
    not return. *)
Lemma foldM_raises {S B} (f : S -> B -> result S) (bad : B) xs :
  In bad xs -> (forall s, is_ok (f s bad) = false) ->
  forall s, is_ok (foldM f s xs) = false.
Proof.
  intros Hin Hbad. induction xs as [|x xs IH]; intros s; [destruct Hin|].
  simpl. destruct Hin as [->|Hin].
  - specialize (Hbad s). by destruct (f s bad).
  - destruct (f s x); simpl; [by apply IH|done].
Qed.

Section Facts.

Context `{tools : XmlTools} `{codec : ActionCodec} `{conv : Builtins}
        `{names : NameValidator} `{blender : !Activators}.

Implicit Types (tl : Timeline).

Lemma timeline_set_actions_same tl : set_actions (actions tl) tl = tl.
Proof. by destruct tl. Qed.

(** The inner loop adds the parsed children at the node's time. *)
Lemma add_children_inv t cs : forall tl tl',
  foldM (add_child t) tl cs = Ok tl' ->
  exists acts,
    mapM action_fromXML cs = Ok acts
    /\ tl' = set_actions
               (fold_left (fun l x => add x l) (map (pair t) acts)
                  (actions tl)) tl.
Proof.
  induction cs as [|c cs IH]; intros tl tl' Hrun; simpl in *.
  - injection Hrun as <-. exists []. simpl. by rewrite timeline_set_actions_same.
  - apply bind_ok_inv in Hrun as (tl1 & Hc & Hrest). unfold add_child in Hc.
    apply bind_ok_inv in Hc as (a & Ha & Hc). injection Hc as <-.
    apply IH in Hrest as (acts & Hacts & ->).
    exists (a :: acts). by rewrite Ha, Hacts.
Qed.

Lemma read_all_inv nodes : forall tl tl',
  foldM read_timed_actions tl nodes = Ok tl' ->
  exists ls,
    mapM node_pairs nodes = Ok ls
    /\ tl' = set_actions
               (fold_left (fun l x => add x l) (concat ls) (actions tl)) tl.
Proof.
  induction nodes as [|node nodes IH]; intros tl tl' Hrun; simpl in *.
  - injection Hrun as <-. exists []. simpl. by rewrite timeline_set_actions_same.
  - apply bind_ok_inv in Hrun as (tl1 & Hnode & Hrest).
    unfold read_timed_actions in Hnode.
    destruct (Xml.attrib node !! "seconds-time" ≫= py_float) as [t|]
      eqn:Htime; [|discriminate].
    apply add_children_inv in Hnode as (acts & Hacts & ->).
    apply IH in Hrest as (ls & Hls & ->).
    exists (map (pair t) acts :: ls). unfold node_pairs at 1.
    rewrite Htime, Hacts. simpl. rewrite Hls. simpl.
    split; [done|]. by rewrite fold_left_app.
Qed.

(** What [fromXML] returns, in terms of the document. *)
Lemma fromXML_inv root tl :
  fromXML root = Ok tl ->
  exists n0 n pairs,
    Xml.attrib root !! "name" = Some n0
    /\ setitem_name n0 = Ok n
    /\ name tl = Some n
    /\ activator tl = None
    /\ timed_pairs root = Ok pairs
    /\ actions tl = of_list pairs.
Proof.
  unfold fromXML, timed_pairs. intros Hrun.
  destruct (Xml.attrib root !! "name") as [n0|]; [|discriminate].
  destruct (setitem_name n0) as [n|e] eqn:Hset;
    [|destruct e; discriminate].
  apply bind_ok_inv in Hrun as (tl1 & Hsi & Hrun).
  apply read_all_inv in Hrun as (ls & Hls & ->).
  exists n0, n, (concat ls). rewrite Hls. simpl.
  assert (Htl1 : name tl1 = Some n /\ activator tl1 = None /\ actions tl1 = []).
  { destruct (Xml.attrib root !! "start-immediately") as [s|].
    - apply bind_ok_inv in Hsi as (b & _ & Hsi). by injection Hsi as <-.
    - by injection Hsi as <-. }
  destruct Htl1 as (Hn & Hact & Hnil). rewrite Hnil. done.
Qed.

(** C4: the actions of a timeline, whether given at construction or
    read by [fromXML], are iterated in non-decreasing order of start
    time, and pairs of equal time come in their order of insertion,
    whenever the start times are numbers, none of them nan: the list
    is a stable sorting of the pairs given, respectively of the
    document's pairs in document order; and so is the list after any
    further sequence of insertions of such pairs. *)
Theorem C4_actions_are_stably_sorted :
  (forall n si acts tl,
     init n si (Some acts) = Ok tl ->
     no_nan acts -> stable_sorting acts (actions tl))
  /\ (forall root tl,
        fromXML root = Ok tl ->
        exists pairs,
          timed_pairs root = Ok pairs
          /\ (no_nan pairs -> stable_sorting pairs (actions tl)))
  /\ (forall (given inserted : list (pyfloat * W3DAction)),
        no_nan (given ++ inserted) ->
        stable_sorting (given ++ inserted)
          (fold_left (fun l x => add x l) inserted (of_list given))).
Proof.
  split; [|split].
  - intros n si acts tl Hinit Hnum. unfold init in Hinit.
    apply bind_ok_inv in Hinit as (n' & _ & Hinit).
    apply bind_ok_inv in Hinit as (l & Hl & Hinit). injection Hinit as <-.
    simpl. destruct (valid_actions acts); [|discriminate].
    injection Hl as <-. by apply of_list_stable.
  - intros root tl Hrun.
    apply fromXML_inv in Hrun as (n0 & n & pairs & _ & _ & _ & _ & Hp & ->).
    exists pairs. split; [exact Hp|apply of_list_stable].
  - intros given inserted Hnum. unfold of_list. rewrite <- fold_left_app.
    by apply of_list_stable.
Qed.

(** [fromXML] hands the time it reads to [add] as it is. *)
Lemma fromXML_keeps_any_time n s t c a :
  setitem_name n = Ok n ->
  py_float s = Some t ->
  action_fromXML c = Ok a ->
  exists tl,
    fromXML (Xml.node "Timeline" (<["name" := n]> ∅)
               [Xml.node "TimedActions" (<["seconds-time" := s]> ∅) [c]])
    = Ok tl
    /\ actions tl = [(t, a)].
Proof.
  intros Hn Ht Ha. eexists. unfold fromXML. simpl.
  rewrite lookup_insert_eq, Hn, lookup_insert_ne, lookup_empty by done.
  simpl. unfold read_timed_actions. simpl.
  rewrite lookup_insert_eq. simpl. rewrite Ht. simpl.
  unfold add_child. rewrite Ha. simpl. done.
Qed.

(** C9: a document that lacks a required field is refused with
    [BadW3DXML]: a [LinkRoot] without a [Link] child, a [Timeline]
    without a [name] attribute, and a [TimedActions] node without a
    numeric [seconds-time] attribute; a timeline document holding
    such a node is never read into a timeline, and is refused with
    [BadW3DXML] when the nodes before it are read without an
    exception. *)
Theorem C9_missing_fields_are_refused :
  (forall root,
     Xml.find "Link" root = None ->
     W3DLink.fromXML root = Raise BadW3DXML)
  /\ (forall root,
        Xml.attrib root !! "name" = None ->
        fromXML root = Raise BadW3DXML)
  /\ (forall tl node,
        Xml.attrib node !! "seconds-time" ≫= py_float = None ->
        read_timed_actions tl node = Raise BadW3DXML)
  /\ (forall root node,
        In node (Xml.findall "TimedActions" root) ->
        Xml.attrib node !! "seconds-time" ≫= py_float = None ->
        is_ok (fromXML root) = false)
  /\ (forall root n0 n before node after,
        Xml.attrib root !! "name" = Some n0 ->
        setitem_name n0 = Ok n ->
        is_ok (match Xml.attrib root !! "start-immediately" with
               | Some s => text2bool (Some s)
               | None => Ok true
               end) = true ->
        Xml.findall "TimedActions" root = before ++ node :: after ->
        Xml.attrib node !! "seconds-time" ≫= py_float = None ->
        (forall tl0, is_ok (foldM read_timed_actions tl0 before) = true) ->
        fromXML root = Raise BadW3DXML).
Proof.
  split; [|split; [|split; [|split]]].
  - apply W3DLinkFacts.fromXML_without_link.
  - intros root Hname. unfold fromXML. by rewrite Hname.
  - intros tl node Htime. unfold read_timed_actions. by rewrite Htime.
  - intros root node Hin Htime. unfold fromXML.
    destruct (Xml.attrib root !! "name"); [|done].
    destruct (setitem_name s) as [n|e]; [|by destruct e].
    match goal with
    | |- is_ok (Py.bind ?r _) = false => destruct r as [tl1|e]; [|done]
    end.
    simpl. apply (foldM_raises _ node); [exact Hin|].
    intros s0. unfold read_timed_actions. by rewrite Htime.
  - intros root n0 n before node after Hname Hset Hsi Hnodes Htime Hbefore.
    unfold fromXML. rewrite Hname, Hset, Hnodes.
    match goal with
    | |- Py.bind ?r _ = _ => destruct r as [tl1|e] eqn:Hr
    end.
    + simpl. rewrite foldM_app. specialize (Hbefore tl1).
      destruct (foldM read_timed_actions tl1 before) as [tl2|e];
        [|discriminate].
      simpl. unfold read_timed_actions at 1. by rewrite Htime.
    + exfalso. destruct (Xml.attrib root !! "start-immediately") as [s|];
        [|discriminate].
      destruct (text2bool (Some s)); simpl in *; discriminate.
Qed.





(** C7 (as the code has it): on a timeline that holds no name and has
    not been blended, [write_blender_logic] raises [KeyError], the
    name being read for the log message before the [try]; the linking
    step of the same timeline and the writing step of a link, which
    read no name, raise [EBKAC]. *)
Theorem C7_unnamed_timeline_writes_logic_with_KeyError :
  write_blender_logic new_timeline = Raise KeyError
  /\ link_blender_logic new_timeline = Raise EBKAC
  /\ W3DLink.write_blender_logic W3DLink.new_link = Raise EBKAC
  /\ W3DLink.link_blender_logic W3DLink.new_link = Raise EBKAC.
Proof. repeat split. Qed.

(** Before [blend], linking raises [EBKAC], and so does writing on a
    timeline that holds a name. *)
Lemma timeline_steps_before_blend tl :
  activator tl = None ->
  link_blender_logic tl = Raise EBKAC
  /\ (is_Some (name tl) -> write_blender_logic tl = Raise EBKAC).
Proof.
  intros Hact. unfold link_blender_logic, write_blender_logic, get_name.
  rewrite Hact. split; [done|]. by intros [n ->].
Qed.

Lemma link_steps_before_blend (link : W3DLink.Link) :
  W3DLink.activator link = None ->
  W3DLink.link_blender_logic link = Raise EBKAC
  /\ W3DLink.write_blender_logic link = Raise EBKAC.
Proof.
  intros Hact.
  unfold W3DLink.link_blender_logic, W3DLink.write_blender_logic.
  by rewrite Hact.
Qed.

(** After a [blend] that returned, the two steps do what the
    activator's own steps do, [AttributeError] becoming [EBKAC]: they
    return whenever the activator's steps return. *)
Lemma timeline_steps_after_blend tl tl' :
  blend tl = (tl', Ok tt) ->
  exists a,
    activator tl' = Some a
    /\ link_blender_logic tl' = except_AttributeError (link_logic_bricks a)
    /\ write_blender_logic tl'
       = except_AttributeError (write_python_logic a).
Proof.
  unfold blend, get_name. intros Hblend.
  destruct (name tl) as [n|] eqn:Hn; [|by injection Hblend].
  destruct (BlenderTimeline n (actions tl) (get_start_immediately tl))
    as [a|e]; [|by injection Hblend].
  injection Hblend as <- _. exists a.
  unfold link_blender_logic, write_blender_logic, get_name. simpl.
  by rewrite Hn.
Qed.

Lemma link_steps_after_blend object_name (link link' : W3DLink.Link) :
  W3DLink.blend object_name link = (link', Ok tt) ->
  exists a,
    W3DLink.activator link' = Some a
    /\ W3DLink.link_blender_logic link'
       = except_AttributeError (link_logic_bricks a)
    /\ W3DLink.write_blender_logic link'
       = except_AttributeError (write_python_logic a).
Proof.
  unfold W3DLink.blend. intros Hblend.
  destruct (BlenderClickTrigger _ _ _ _ _ _ _) as [a|e];
    [|by injection Hblend].
  injection Hblend as <- _. by exists a.
Qed.

End Facts.

#[local] Existing Instances Sample.xml_tools Sample.action_codec
  Sample.builtins Sample.name_validator Sample.activators.

(** C8 (as the code has it): [fromXML] reads a [TimedActions] node
    whose [seconds-time] is -5 into a timeline that holds the pair at
    time -5, although the validator of [actions] refuses that list and
    construction with it raises [InvalidArgument]: the pair goes
    straight to the sorted list, past the validator. *)
Theorem C8_fromXML_keeps_negative_start_time :
  exists tl,
    fromXML (Sample.timeline_doc [Sample.timed "-5" "ObjectChange"]) = Ok tl
    /\ actions tl = [(Finite (-5), "ObjectChange")]
    /\ valid_actions (actions tl) = false
    /\ init (Some "intro") None (Some (actions tl)) = Raise InvalidArgument.
Proof. eexists. repeat split. Qed.

(** The claim as it is stated fails at a document whose first node
    has the time [nan], which [float] reads and [fromXML] adds as it
    is: the timeline holds the pair at nan and the pair at 1, in an
    order that is not non-decreasing, nan being at most no time and
    at least no time; no order of the two pairs is. *)
Lemma C4_counterexample :
  exists tl,
    fromXML (Sample.timeline_doc [Sample.timed "nan" "a"; Sample.timed "1" "b"])
    = Ok tl
    /\ timed_pairs
         (Sample.timeline_doc [Sample.timed "nan" "a"; Sample.timed "1" "b"])
       = Ok [(NaN, "a"); (Finite 1, "b")]
    /\ Permutation (actions tl) [(NaN, "a"); (Finite 1, "b")]
    /\ ~ StronglySorted le_time (actions tl)
    /\ (forall l : list (pyfloat * W3DAction),
          Permutation l [(NaN, "a"); (Finite 1, "b")] ->
          ~ StronglySorted le_time l).
Proof.
  eexists. split; [vm_compute; reflexivity|].
  split; [vm_compute; reflexivity|].
  split; [reflexivity|].
  split; [by apply (nan_is_never_sorted "a" "b" (Finite 1))|].
  intros l. apply nan_is_never_sorted.
Qed.

(** The theorem at three pairs given out of order, two of them at the
    same time, and at a document with the same pairs. *)
Lemma C4_witness :
  stable_sorting Sample.pairs_given Sample.pairs_sorted
  /\ (exists pairs,
        timed_pairs
          (Sample.timeline_doc
             [Sample.timed "2" "b"; Sample.timed "1" "a";
              Sample.timed "2" "c"]) = Ok pairs
        /\ stable_sorting pairs Sample.pairs_sorted).
Proof.
  destruct (C4_actions_are_stably_sorted
              (codec := Sample.action_codec)) as (Hinit & Hread & _).
  split.
  - apply (Hinit (Some "intro") None Sample.pairs_given
             Sample.timeline_sorted).
    + vm_compute. reflexivity.
    + by repeat constructor.
  - destruct (Hread
                (Sample.timeline_doc
                   [Sample.timed "2" "b"; Sample.timed "1" "a";
                    Sample.timed "2" "c"])
                Sample.timeline_sorted) as (pairs & Hpairs & Hsorted).
    + vm_compute. reflexivity.
    + exists pairs. split; [exact Hpairs|]. apply Hsorted.
      vm_compute in Hpairs. injection Hpairs as <-.
      by repeat constructor.
Defined.

(** The theorem at a [LinkRoot] and a [Timeline] with nothing in
    them, and at a timeline whose second node has no time. *)
Lemma C9_witness :
  W3DLink.fromXML (Xml.node "LinkRoot" ∅ []) = Raise BadW3DXML
  /\ fromXML (Xml.node "Timeline" ∅ []) = Raise BadW3DXML
  /\ fromXML
       (Sample.timeline_doc
          [Sample.timed "1" "a";
           Xml.node "TimedActions" ∅ [Xml.node "b" ∅ []]])
     = Raise BadW3DXML
  /\ fromXML
       (Sample.timeline_doc
          [Sample.timed "1" "a"; Sample.timed "soon" "b"])
     = Raise BadW3DXML.
Proof.
  destruct (C9_missing_fields_are_refused
              (codec := Sample.action_codec))
    as (Hlink & Hname & _ & _ & Hnode).
  split; [by apply Hlink|]. split; [by apply Hname|]. split.
  - apply (Hnode _ "intro" "intro" [Sample.timed "1" "a"]
             (Xml.node "TimedActions" ∅ [Xml.node "b" ∅ []]) []);
      try reflexivity.
  - apply (Hnode _ "intro" "intro" [Sample.timed "1" "a"]
             (Sample.timed "soon" "b") []); try reflexivity.
Defined.

End W3DTimelineFacts.

(** ** Round trip through documents *)

Module RoundTrip.

Import W3DLink.

Section Dictionaries.

Context {V : Type}.

Implicit Types (d : list (Z * list V)) (k : Z) (v : V).

Lemma dict_append_new k v d :
  ~ In k (keys d) -> dict_append k v d = d ++ [(k, [v])].
Proof.
  induction d as [|[k' vs] d IH]; intros Hk; simpl in *; [done|].
  destruct (k' =? k) eqn:Heq.
  - apply Z.eqb_eq in Heq. tauto.
  - rewrite IH; [done|tauto].
Qed.

Lemma dict_append_last k v vs d :
  ~ In k (keys d) ->
  dict_append k v (d ++ [(k, vs)]) = d ++ [(k, vs ++ [v])].
Proof.
  induction d as [|[k' ws] d IH]; intros Hk; simpl in *.
  - by rewrite Z.eqb_refl.
  - destruct (k' =? k) eqn:Heq.
    + apply Z.eqb_eq in Heq. tauto.
    + rewrite IH; [done|tauto].
Qed.

Lemma append_all_last k vs ws d :
  ~ In k (keys d) ->
  append_all k vs (d ++ [(k, ws)]) = d ++ [(k, ws ++ vs)].
Proof.
  intros Hk. unfold append_all. revert ws.
  induction vs as [|v vs IH]; intros ws; simpl.
  - by rewrite app_nil_r.
  - rewrite dict_append_last by done. rewrite IH. by rewrite <- app_assoc.
Qed.

Lemma append_all_new k vs d :
  ~ In k (keys d) -> vs <> [] -> append_all k vs d = d ++ [(k, vs)].
Proof.
  intros Hk Hvs. destruct vs as [|v vs]; [done|].
  change (append_all k (v :: vs) d) with (append_all k vs (dict_append k v d)).
  rewrite dict_append_new by done. by apply append_all_last.
Qed.

Lemma fold_entries_app (es es' : list (Z * V)) d :
  fold_left (fun d e => dict_append (fst e) (snd e) d) (es ++ es') d
  = fold_left (fun d e => dict_append (fst e) (snd e) d) es'
      (fold_left (fun d e => dict_append (fst e) (snd e) d) es d).
Proof. apply fold_left_app. Qed.

Lemma fold_entries_same_key k vs d :
  fold_left (fun d e => dict_append (fst e) (snd e) d) (map (pair k) vs) d
  = append_all k vs d.
Proof.
  unfold append_all. revert d.
  induction vs as [|v vs IH]; intros d; simpl; [done|]. apply IH.
Qed.

(** Filing the bindings of a tidy dictionary after a dictionary with
    other keys writes the dictionary after it. *)
Lemma fold_entries_rebuilds d : forall d0,
  NoDup (keys d0 ++ keys d) ->
  Forall (fun e => snd e <> []) d ->
  fold_left (fun d e => dict_append (fst e) (snd e) d) (entries d) d0
  = d0 ++ d.
Proof.
  induction d as [|[k vs] d IH]; intros d0 Hnodup Hne; simpl.
  - by rewrite app_nil_r.
  - inversion Hne as [|? ? Hvs Hrest]; subst. simpl in Hvs.
    rewrite fold_entries_app, fold_entries_same_key.
    assert (Hk : ~ In k (keys d0)).
    { intros Hin. simpl in Hnodup.
      apply NoDup_app in Hnodup as (_ & Hdisj & _).
      apply list_elem_of_In in Hin. apply (Hdisj k Hin). by left. }
    rewrite append_all_new by done.
    rewrite IH; [by rewrite <- app_assoc| |done].
    unfold keys in *. rewrite map_app. simpl in *.
    rewrite <- app_assoc. exact Hnodup.
Qed.

Lemma entries_keys k d :
  Forall (fun e => snd e <> []) d ->
  In k (keys d) -> In k (map fst (entries d)).
Proof.
  induction 1 as [|[k' vs] d Hvs _ IH]; simpl; [done|].
  rewrite map_app, in_app_iff. intros [<-|Hin]; [left|right; by apply IH].
  destruct vs as [|v vs]; [done|]. simpl. by left.
Qed.

Lemma keys_dict_append_old k v d :
  In k (keys d) -> keys (dict_append k v d) = keys d.
Proof.
  induction d as [|[k' vs] d IH]; simpl; [done|].
  intros Hin. destruct (k' =? k) eqn:Heq; simpl; [done|].
  apply Z.eqb_neq in Heq. rewrite IH; [done|]. by destruct Hin.
Qed.

Lemma keys_dict_append_new k v d :
  ~ In k (keys d) -> keys (dict_append k v d) = keys d ++ [k].
Proof.
  intros Hk. rewrite dict_append_new by done. unfold keys.
  by rewrite map_app.
Qed.

Lemma In_keys_dict_append k k' v d :
  In k' (keys (dict_append k v d)) <-> k' = k \/ In k' (keys d).
Proof.
  destruct (in_dec Z.eq_dec k (keys d)) as [Hd|Hd].
  - rewrite keys_dict_append_old by done. split; [tauto|].
    intros [->|?]; done.
  - rewrite keys_dict_append_new by done. rewrite in_app_iff. simpl.
    intuition.
Qed.



Lemma In_keys_append_all k k' vs d :
  In k' (keys d) -> In k' (keys (append_all k vs d)).
Proof.
  unfold append_all. revert d.
  induction vs as [|v vs IH]; intros d Hin; simpl; [done|].
  apply IH. apply In_keys_dict_append. by right.
Qed.

Lemma In_keys_append_all_new k vs d :
  vs <> [] -> In k (keys (append_all k vs d)).
Proof.
  intros Hvs. destruct vs as [|v vs]; [done|].
  change (append_all k (v :: vs) d) with (append_all k vs (dict_append k v d)).
  apply In_keys_append_all, In_keys_dict_append. by left.
Qed.

End Dictionaries.

Section Links.

Context `{tools : XmlTools} `{codec : ActionCodec} `{conv : Builtins}
        `{names : NameValidator} `{blender : !Activators}.

Implicit Types (link M : Link).






(** *** Reading back what [toXML] writes *)

Lemma actions_nodes_entries link :
  actions_nodes link = map (entry_node link) (entries (actions link)).
Proof.
  unfold actions_nodes, entries.
  induction (actions link) as [|[k vs] d IH]; simpl; [done|].
  by rewrite map_app, map_map, IH.
Qed.

Lemma find_clicks_of_entry link k a :
  String.eqb (Xml.tag (action_toXML a)) "Clicks" = false ->
  Xml.find "Clicks" (entry_node link (k, a)) = Some (clicks_node link k).
Proof.
  intros Htag. unfold Xml.find, entry_node, Xml.node. simpl.
  unfold Xml.has_tag at 1. by rewrite Htag.
Qed.

Lemma find_num_clicks_any link k :
  k < 0 -> Xml.find "NumClicks" (clicks_node link k) = None.
Proof.
  intros Hk. unfold clicks_node.
  assert (Hlt : (k <? 0) = true) by (apply Z.ltb_lt; lia).
  by rewrite Hlt.
Qed.

Lemma find_num_clicks_count link k :
  0 <= k ->
  Xml.find "NumClicks" (clicks_node link k)
  = Some (Xml.node "NumClicks"
            (<["num_clicks" := pretty k]>
               (<["reset" := bool2text (reset link =? k)]> ∅)) []).
Proof.
  intros Hk. unfold clicks_node.
  assert (Hlt : (k <? 0) = false) by (apply Z.ltb_ge; lia).
  by rewrite Hlt.
Qed.

Lemma file_written_children link M n k a :
  action_fromXML (action_toXML a) = Ok a ->
  String.eqb (Xml.tag (action_toXML a)) "Clicks" = false ->
  foldM (file_child n) M (Xml.children (entry_node link (k, a)))
  = Ok (set_actions (dict_append n a (actions M)) M).
Proof.
  intros Ha Htag. unfold entry_node, Xml.node. simpl.
  unfold file_child at 1. rewrite Htag, Ha. simpl. done.
Qed.

(** Reading the node written for one binding files the action under
    its click count and moves [reset] by [reset_step]. *)
Lemma read_written_entry link M k a :
  (forall b, text2bool (Some (bool2text b)) = Ok b) ->
  -1 <= k ->
  (0 <= k -> py_int (pretty k) = Some k) ->
  action_fromXML (action_toXML a) = Ok a ->
  String.eqb (Xml.tag (action_toXML a)) "Clicks" = false ->
  read_actions_node M (entry_node link (k, a))
  = Ok (set_actions (dict_append k a (actions M))
          (set_reset (reset_step link (reset M) k) M)).
Proof.
  intros Hbool Hk Hint Ha Htag.
  unfold read_actions_node, read_clicks, reset_step, lower_to.
  rewrite find_clicks_of_entry by done.
  destruct (Z.lt_ge_cases k 0) as [Hneg|Hpos].
  - assert (k = -1) as -> by lia.
    rewrite find_num_clicks_any by done. simpl Py.bind.
    unfold file_child. by rewrite Htag, Ha.
  - rewrite find_num_clicks_count by done.
    assert (Hle : (0 <=? k) = true) by (apply Z.leb_le; lia).
    rewrite Hle. unfold Xml.node, Xml.attrib.
    rewrite lookup_insert_eq. simpl mbind. rewrite (Hint Hpos).
    rewrite lookup_insert_ne, lookup_insert_eq by done.
    rewrite Hbool. simpl andb.
    destruct (reset link =? k).
    + destruct ((k <? reset M) || (reset M =? -1)); simpl Py.bind;
        unfold file_child; by rewrite Htag, Ha.
    + simpl Py.bind. unfold file_child. by rewrite Htag, Ha.
Qed.

Lemma read_written_entries link es : forall M,
  (forall b, text2bool (Some (bool2text b)) = Ok b) ->
  Forall (fun e =>
            -1 <= fst e
            /\ (0 <= fst e -> py_int (pretty (fst e)) = Some (fst e))
            /\ action_fromXML (action_toXML (snd e)) = Ok (snd e)
            /\ String.eqb (Xml.tag (action_toXML (snd e))) "Clicks" = false)
         es ->
  foldM read_actions_node M (map (entry_node link) es)
  = Ok (set_actions
          (fold_left (fun d e => dict_append (fst e) (snd e) d) es
             (actions M))
          (set_reset (fold_left (reset_step link) (map fst es) (reset M))
             M)).
Proof.
  induction es as [|[k a] es IH]; intros M Hbool Hes; simpl.
  - by destruct M.
  - inversion Hes as [|? ? (Hk & Hint & Ha & Htag) Hrest]; subst.
    simpl in Hk, Hint, Ha, Htag.
    rewrite read_written_entry by done. simpl Py.bind.
    by rewrite IH.
Qed.

(** [reset] is found again from the tags that [toXML] writes. *)
Lemma reset_steps_fixed link ks :
  fold_left (reset_step link) ks (reset link) = reset link.
Proof.
  induction ks as [|k ks IH]; simpl; [done|].
  assert (Hstep : reset_step link (reset link) k = reset link).
  { unfold reset_step, lower_to.
    destruct (0 <=? k) eqn:Hk; simpl; [|done].
    destruct (reset link =? k) eqn:Heq; [|done].
    apply Z.eqb_eq in Heq.
    by destruct ((k <? reset link) || (reset link =? -1)). }
  by rewrite Hstep.
Qed.

Lemma reset_steps_from_default link ks :
  reset link = -1 \/ (0 <= reset link /\ In (reset link) ks) ->
  fold_left (reset_step link) ks (-1) = reset link.
Proof.
  intros [Hdef|[Hpos Hin]].
  - transitivity (fold_left (reset_step link) ks (reset link));
      [by rewrite Hdef|apply reset_steps_fixed].
  - induction ks as [|k ks IH]; simpl; [destruct Hin|].
    unfold reset_step at 2, lower_to.
    destruct (0 <=? k) eqn:Hk; simpl.
    + destruct (reset link =? k) eqn:Heq.
      * apply Z.eqb_eq in Heq. rewrite orb_true_r, <- Heq.
        apply reset_steps_fixed.
      * apply Z.eqb_neq in Heq. apply IH.
        destruct Hin as [?|?]; [congruence|done].
    + apply Z.leb_gt in Hk. apply IH. destruct Hin as [?|?]; [lia|done].
Qed.

Lemma valid_color_three c :
  valid_color c = true -> exists r g b, c = [r; g; b].
Proof.
  unfold valid_color. destruct c as [|r [|g [|b [|x c]]]]; try done.
  intros _. by exists r, g, b.
Qed.

(** Writing a tidy link and reading the result gives the link back,
    provided that the collaborators read back what they write. *)
Lemma link_round_trip link :
  tidy link -> reads_back link ->
  exists doc, toXML link = Ok doc /\ fromXML doc = Ok link.
Proof.
  intros ((Hnodup & Hne & Hkeys) & Hreset & Hec & Hsc & Hact)
         (Hfind & Hbool & Hecl & Hscl & Hlaws).
  destruct (valid_color_three _ Hec) as (r1 & g1 & b1 & Hec3).
  destruct (valid_color_three _ Hsc) as (r2 & g2 & b2 & Hsc3).
  unfold toXML. rewrite Hec3, Hsc3. simpl Py.bind.
  eexists. split; [reflexivity|].
  rewrite Hec3 in Hecl. rewrite Hsc3 in Hscl.
  specialize (Hecl _ eq_refl). specialize (Hscl _ eq_refl).
  unfold fromXML.
  match goal with
  | |- match Xml.find "Link" (Xml.node _ _ [?n]) with _ => _ end = _ =>
      change (Xml.find "Link" (Xml.node "LinkRoot" ∅ [n])) with (Some n);
      set (link_node := n)
  end.
  cbv beta iota.
  pose proof (Hfind link_node "Enabled"
                (Xml.text_node "Enabled" (bool2text (enabled link)))
                (enabled link) eq_refl eq_refl) as Hen.
  pose proof (Hfind link_node "RemainEnabled"
                (Xml.text_node "RemainEnabled"
                   (bool2text (remain_enabled link)))
                (remain_enabled link) eq_refl eq_refl) as Hren.
  destruct (find_xml_text link_node "Enabled") as [t1|e1];
    [cbn [Py.bind] in Hen|discriminate].
  destruct (find_xml_text link_node "RemainEnabled") as [t2|e2];
    [cbn [Py.bind] in Hren|discriminate].
  cbn [Py.bind]. rewrite Hen. cbn [Py.bind]. rewrite Hren. cbn [Py.bind].
  change (Xml.find "EnabledColor" link_node)
    with (Some (Xml.text_node "EnabledColor"
                  (pretty r1 +:+ "," +:+ pretty g1 +:+ "," +:+ pretty b1))).
  change (Xml.find "SelectedColor" link_node)
    with (Some (Xml.text_node "SelectedColor"
                  (pretty r2 +:+ "," +:+ pretty g2 +:+ "," +:+ pretty b2))).
  unfold read_color, Xml.text_node, Xml.text, setitem_color.
  rewrite Hec3 in Hec. rewrite Hsc3 in Hsc.
  rewrite Hecl. cbn [Py.bind]. rewrite Hec. cbn [Py.bind].
  rewrite Hscl. cbn [Py.bind]. rewrite Hsc. cbn [Py.bind].
  assert (Hall : Xml.findall "Actions" link_node = actions_nodes link).
  { unfold Xml.findall, link_node, Xml.node, Xml.children.
    change (List.filter (Xml.has_tag "Actions") (actions_nodes link)
            = actions_nodes link).
    apply W3DTimelineFacts.filter_all.
    rewrite actions_nodes_entries. apply Forall_map. by apply Forall_true. }
  rewrite Hall, actions_nodes_entries.
  rewrite read_written_entries; [|done|].
  - simpl actions. simpl reset.
    rewrite (fold_entries_rebuilds (actions link) []) by done.
    rewrite reset_steps_from_default.
    + destruct link; simpl in *. by subst.
    + destruct Hreset as [?|[? Hin]]; [by left|right].
      split; [done|]. by apply entries_keys.
  - assert (Hin_keys : forall e, In e (entries (actions link)) ->
                                  In (fst e) (keys (actions link))).
    { clear. intros e. unfold entries, keys.
      induction (actions link) as [|[k vs] d IH]; simpl; [done|].
      rewrite in_app_iff, in_map_iff.
      intros [(v & <- & _)|Hin]; [by left|right; by apply IH]. }
    apply List.Forall_forall. intros e He.
    rewrite List.Forall_forall in Hlaws, Hkeys.
    destruct (Hlaws e He) as (Hint & Ha & Htag).
    repeat split; try done. apply Hkeys. by apply Hin_keys.
Qed.

End Links.

Section Claim.

Context `{tools : XmlTools} `{codec : ActionCodec} `{conv : Builtins}
        `{names : NameValidator} `{blender : !Activators}.


End Claim.

#[local] Existing Instances Sample.xml_tools Sample.action_codec
  Sample.builtins Sample.name_validator Sample.activators.






End RoundTrip.

(** ** Utilities *)

Module UtilityFacts.

Import Utility.

Lemma count_newlines_app (s1 s2 : string) :
  count_newlines (s1 +:+ s2) = count_newlines s1 + count_newlines s2.
Proof.
  induction s1 as [|a s1 IH]; simpl; [done|]. rewrite IH. lia.
Qed.

Lemma count_newlines_nonneg (s : string) : 0 <= count_newlines s.
Proof.
  induction s as [|a s IH]; simpl; [done|].
  destruct (Ascii.eqb a (ascii_of_nat 10)); lia.
Qed.

(** X1: a text has at least one line, the empty text included; the
    lines of two texts put end to end are those of the two, less one
    for the line they share; and an added newline adds one line. *)
Theorem line_count_of_concatenation (s1 s2 : string) :
  1 <= line_count s1
  /\ line_count "" = 1
  /\ line_count (s1 +:+ s2) = line_count s1 + line_count s2 - 1
  /\ line_count (s1 +:+ String (ascii_of_nat 10) s2)
     = line_count s1 + line_count s2.
Proof.
  unfold line_count. pose proof (count_newlines_nonneg s1).
  split; [lia|]. split; [reflexivity|].
  rewrite !count_newlines_app. simpl. split; lia.
Qed.

Section Models.

Context {World Obj : Type}.

Variable duplicate_object : Obj -> World -> World * result Obj.
Variable import_model : string -> World -> World * result Obj.

#[warnings="-notation-for-abbreviation"]
Notation generate :=
  (generate_object_from_model World Obj duplicate_object import_model).

(** The call made with a fresh attribute goes to the import. *)
Lemma generate_fresh fuel filename w :
  generate (S fuel) filename (Some ∅) w
  = match import_model filename w with
    | (w2, Ok m) => Some (w2, Some (<[filename := m]> ∅), Ok m)
    | (w2, Raise e) => Some (w2, Some ∅, Raise e)
    end.
Proof. simpl. rewrite lookup_empty. by destruct (import_model filename w) as [w2 [m|e]]. Qed.

(** A request for a file that is not kept imports it. *)
Lemma import_on_first_request
  (fuel : nat) (filename : string) (models : option (gmap string Obj))
  (w w' : World) (m : Obj) :
  (forall ms, models = Some ms -> ms !! filename = None) ->
  import_model filename w = (w', Ok m) ->
  generate (S (S fuel)) filename models w
  = Some (w', Some (<[filename := m]> (default ∅ models)), Ok m).
Proof.
  intros Hmiss Himport. destruct models as [ms|].
  - simpl. rewrite (Hmiss ms eq_refl). by rewrite Himport.
  - change (generate (S (S fuel)) filename None w)
      with (generate (S fuel) filename (Some ∅) w).
    by rewrite generate_fresh, Himport.
Qed.

(** X2: the first request for a file, whether the attribute does not
    exist yet or holds other files only, imports the file, returns
    the imported object itself and keeps it under the file's name,
    the other files staying as they were; [duplicate_object] is not
    called.  The function calls itself at most once. *)
Theorem first_request_imports_and_keeps
  (fuel : nat) (filename : string) (models : option (gmap string Obj))
  (w w' : World) (m : Obj) :
  (forall ms, models = Some ms -> ms !! filename = None) ->
  import_model filename w = (w', Ok m) ->
  generate_object_from_model World Obj duplicate_object import_model
    (S (S fuel)) filename models w
  = Some (w', Some (<[filename := m]> (default ∅ models)), Ok m)
  /\ forall other, other <> filename ->
       (<[filename := m]> (default ∅ models)) !! other
       = default ∅ models !! other.
Proof.
  intros Hmiss Himport. split; [by apply import_on_first_request|].
  intros other Hother. by rewrite lookup_insert_ne.
Qed.

(** A request for a file that is kept duplicates the kept object. *)
Lemma later_request_duplicates
  (fuel : nat) (filename : string) (ms : gmap string Obj)
  (w w' : World) (original new : Obj) :
  ms !! filename = Some original ->
  duplicate_object original w = (w', Ok new) ->
  generate (S fuel) filename (Some ms) w = Some (w', Some ms, Ok new).
Proof. intros Hkept Hdup. simpl. by rewrite Hkept, Hdup. Qed.

(** X3: after the first request for a file, a second request does
    not import the file again: it returns a duplicate of the object
    that the first request imported and returned, and what is kept
    stays as the first request left it. *)
Theorem second_request_duplicates_the_import
  (fuel fuel' : nat) (filename : string)
  (models : option (gmap string Obj)) (w w1 w2 : World) (m new : Obj) :
  (forall ms, models = Some ms -> ms !! filename = None) ->
  import_model filename w = (w1, Ok m) ->
  duplicate_object m w1 = (w2, Ok new) ->
  exists kept,
    generate_object_from_model World Obj duplicate_object import_model
      (S (S fuel)) filename models w = Some (w1, Some kept, Ok m)
    /\ kept !! filename = Some m
    /\ generate_object_from_model World Obj duplicate_object import_model
         (S fuel') filename (Some kept) w1
       = Some (w2, Some kept, Ok new).
Proof.
  intros Hmiss Himport Hdup.
  exists (<[filename := m]> (default ∅ models)).
  split; [by apply import_on_first_request|].
  split; [by rewrite lookup_insert_eq|].
  apply later_request_duplicates with (original := m); [|done].
  by rewrite lookup_insert_eq.
Qed.

(** X4: when duplicating the kept object raises [AttributeError], the
    handler meant for the missing attribute empties the attribute:
    the file is imported again, and every other file that was kept
    is forgotten. *)
Theorem attribute_error_in_duplicate_forgets_all
  (fuel : nat) (filename : string) (ms : gmap string Obj)
  (w w1 w2 : World) (original m : Obj) :
  ms !! filename = Some original ->
  duplicate_object original w = (w1, Raise AttributeError) ->
  import_model filename w1 = (w2, Ok m) ->
  generate_object_from_model World Obj duplicate_object import_model
    (S (S fuel)) filename (Some ms) w
  = Some (w2, Some (<[filename := m]> ∅), Ok m)
  /\ forall other, other <> filename ->
       (<[filename := m]> (∅ : gmap string Obj)) !! other = None.
Proof.
  intros Hkept Hdup Himport. split.
  - change (generate (S (S fuel)) filename (Some ms) w)
      with (match (match ms !! filename with
                   | None => (w, Raise KeyError)
                   | Some original => duplicate_object original w
                   end) with
            | (w1, Ok new) => Some (w1, Some ms, Ok new)
            | (w1, Raise AttributeError) =>
                generate (S fuel) filename (Some ∅) w1
            | (w1, Raise KeyError) =>
                match import_model filename w1 with
                | (w2, Ok new_model) =>
                    Some (w2, Some (<[filename := new_model]> ms),
                          Ok new_model)
                | (w2, Raise e) => Some (w2, Some ms, Raise e)
                end
            | (w1, Raise e) => Some (w1, Some ms, Raise e)
            end).
    rewrite Hkept, Hdup. by rewrite generate_fresh, Himport.
  - intros other Hother. by rewrite lookup_insert_ne, lookup_empty.
Qed.

(** X5: a failed import is reported as it is and keeps nothing under
    the file's name, so that the next request imports again. *)
Theorem failed_import_keeps_nothing
  (fuel : nat) (filename : string) (models : option (gmap string Obj))
  (w w' : World) (e : exn) :
  (forall ms, models = Some ms -> ms !! filename = None) ->
  import_model filename w = (w', Raise e) ->
  exists kept,
    generate_object_from_model World Obj duplicate_object import_model
      (S (S fuel)) filename models w = Some (w', Some kept, Raise e)
    /\ kept !! filename = None
    /\ kept = default ∅ models.
Proof.
  intros Hmiss Himport. destruct models as [ms|].
  - exists ms. simpl. rewrite (Hmiss ms eq_refl), Himport. eauto.
  - exists ∅.
    change (generate (S (S fuel)) filename None w)
      with (generate (S fuel) filename (Some ∅) w).
    rewrite generate_fresh, Himport. by rewrite lookup_empty.
Qed.

End Models.

Section Materials.

Context {World Image : Type}.

Variable display_name_from_filepath : string -> string.
Variable basename_root : string -> string.
Variable images_load : string -> World -> World * result Image.

#[warnings="-notation-for-abbreviation"]
Notation generate :=
  (generate_material_from_image World Image display_name_from_filepath
     basename_root images_load).
#[warnings="-notation-for-abbreviation"]
Notation material :=
  (image_material Image display_name_from_filepath basename_root).

(** A request for an image that is not kept builds its pair. *)
Lemma materials_on_first_request
  (fuel : nat) (filename : string) (double_sided : bool)
  (materials : option (gmap string (Material Image * Material Image)))
  (w w' : World) (img : Image) :
  (forall ms, materials = Some ms -> ms !! filename = None) ->
  images_load filename w = (w', Ok img) ->
  exists mat,
    generate (S (S (S fuel))) filename double_sided materials w
    = Some (w',
            Some (<[filename := (material filename "0" true img,
                                 material filename "1" false img)]>
                    (default ∅ materials)),
            Ok mat)
    /\ mat = material filename (if double_sided then "1" else "0")
               (negb double_sided) img
    /\ use_backface_culling mat = negb double_sided
    /\ use_transparency mat = true
    /\ alpha mat = 0
    /\ image (texture (texture_slot mat)) = img.
Proof.
  intros Hmiss Hload.
  exists (material filename (if double_sided then "1" else "0")
            (negb double_sided) img).
  split; [|by destruct double_sided].
  assert (Hms : forall fuel' ms,
    ms !! filename = None ->
    generate (S (S fuel')) filename double_sided (Some ms) w
    = Some (w',
            Some (<[filename := (material filename "0" true img,
                                 material filename "1" false img)]> ms),
            Ok (material filename (if double_sided then "1" else "0")
                  (negb double_sided) img))).
  { intros fuel' ms Hnone. simpl. unfold build_materials.
    rewrite Hnone, Hload, lookup_insert_eq. by destruct double_sided. }
  destruct materials as [ms|].
  - rewrite (Hms (S fuel) ms (Hmiss ms eq_refl)). done.
  - change (generate (S (S (S fuel))) filename double_sided None w)
      with (generate (S (S fuel)) filename double_sided (Some ∅) w).
    rewrite (Hms fuel ∅ (lookup_empty _)). done.
Qed.

(** X6: the first request for an image loads it once and keeps a pair
    of materials for it, both transparent and with the same texture;
    it returns the one without back-face culling when [double_sided]
    and the one with it otherwise.  The function calls itself at most
    twice. *)
Theorem first_request_builds_both_materials
  (fuel : nat) (filename : string) (double_sided : bool)
  (materials : option (gmap string (Material Image * Material Image)))
  (w w' : World) (img : Image) :
  (forall ms, materials = Some ms -> ms !! filename = None) ->
  images_load filename w = (w', Ok img) ->
  exists mat,
    generate_material_from_image World Image display_name_from_filepath
      basename_root images_load
      (S (S (S fuel))) filename double_sided materials w
    = Some (w',
            Some (<[filename := (material filename "0" true img,
                                 material filename "1" false img)]>
                    (default ∅ materials)),
            Ok mat)
    /\ mat = material filename (if double_sided then "1" else "0")
               (negb double_sided) img
    /\ use_backface_culling mat = negb double_sided
    /\ use_transparency mat = true
    /\ alpha mat = 0
    /\ image (texture (texture_slot mat)) = img.
Proof. apply materials_on_first_request. Qed.

(** Once an image's pair is kept, a request for either side returns
    the kept material of that side. *)
Lemma later_request_returns_kept_material
  (fuel : nat) (filename : string) (double_sided : bool)
  (ms : gmap string (Material Image * Material Image))
  (w : World) (single double : Material Image) :
  ms !! filename = Some (single, double) ->
  generate (S fuel) filename double_sided (Some ms) w
  = Some (w, Some ms, Ok (if double_sided then double else single)).
Proof. intros Hkept. simpl. by rewrite Hkept. Qed.

(** X7: after the first request for an image, a request for either
    side loads nothing and leaves what is kept as it is; it returns
    the material of the side asked for, with back-face culling exactly
    when the side is single, and with the texture of the first
    request's material. *)
Theorem second_request_loads_nothing
  (fuel fuel' : nat) (filename : string) (first second : bool)
  (materials : option (gmap string (Material Image * Material Image)))
  (w w' w'' : World) (img : Image) :
  (forall ms, materials = Some ms -> ms !! filename = None) ->
  images_load filename w = (w', Ok img) ->
  exists kept mat1 mat2,
    generate_material_from_image World Image display_name_from_filepath
      basename_root images_load
      (S (S (S fuel))) filename first materials w
    = Some (w', Some kept, Ok mat1)
    /\ generate_material_from_image World Image display_name_from_filepath
         basename_root images_load
         (S fuel') filename second (Some kept) w''
       = Some (w'', Some kept, Ok mat2)
    /\ use_backface_culling mat2 = negb second
    /\ texture (texture_slot mat2) = texture (texture_slot mat1).
Proof.
  intros Hmiss Hload.
  destruct (materials_on_first_request fuel filename first
              materials w w' img Hmiss Hload)
    as (mat1 & Hfirst & Hmat1 & _).
  eexists. exists mat1. eexists.
  split; [exact Hfirst|]. split.
  - apply later_request_returns_kept_material. by rewrite lookup_insert_eq.
  - subst mat1. by destruct first, second.
Qed.

(** X8: an image that cannot be loaded is reported with the host's
    exception and nothing is kept for it. *)
Theorem failed_load_keeps_nothing
  (fuel : nat) (filename : string) (double_sided : bool)
  (materials : option (gmap string (Material Image * Material Image)))
  (w w' : World) (e : exn) :
  (forall ms, materials = Some ms -> ms !! filename = None) ->
  images_load filename w = (w', Raise e) ->
  exists kept,
    generate_material_from_image World Image display_name_from_filepath
      basename_root images_load
      (S (S fuel)) filename double_sided materials w
    = Some (w', Some kept, Raise e)
    /\ kept !! filename = None.
Proof.
  intros Hmiss Hload. destruct materials as [ms|].
  - exists ms. simpl. unfold build_materials.
    rewrite (Hmiss ms eq_refl), Hload. eauto.
  - exists ∅. simpl. unfold build_materials.
    rewrite ?lookup_empty, Hload. by rewrite ?lookup_empty.
Qed.

End Materials.

(** The theorems at a host that counts its calls, names a duplicate
    after its original, and finds every file but the missing ones. *)
Lemma witness_first_import :
  generate_object_from_model nat string Sample.host_duplicate
    Sample.host_import 2 "room.obj" None 0%nat
  = Some (1%nat, Some (<["room.obj" := "room.obj"]> ∅), Ok "room.obj").
Proof.
  apply (first_request_imports_and_keeps Sample.host_duplicate
           Sample.host_import 0 "room.obj" None 0%nat 1%nat "room.obj");
    [discriminate|reflexivity].
Defined.

Lemma witness_second_import :
  exists kept,
    generate_object_from_model nat string Sample.host_duplicate
      Sample.host_import 2 "room.obj" None 0%nat
    = Some (1%nat, Some kept, Ok "room.obj")
    /\ kept !! "room.obj" = Some "room.obj"
    /\ generate_object_from_model nat string Sample.host_duplicate
         Sample.host_import 1 "room.obj" (Some kept) 1%nat
       = Some (2%nat, Some kept, Ok "room.obj.001").
Proof.
  apply (second_request_duplicates_the_import Sample.host_duplicate
           Sample.host_import 0 0 "room.obj" None 0%nat 1%nat 2%nat
           "room.obj" "room.obj.001");
    [discriminate|reflexivity|reflexivity].
Defined.

Lemma witness_failed_import :
  exists kept,
    generate_object_from_model nat string Sample.host_duplicate
      Sample.host_import 2 "missing.obj" None 0%nat
    = Some (1%nat, Some kept, Raise ValueError)
    /\ kept !! "missing.obj" = None
    /\ kept = ∅.
Proof.
  apply (failed_import_keeps_nothing Sample.host_duplicate
           Sample.host_import 0 "missing.obj" None 0%nat 1%nat ValueError);
    [discriminate|reflexivity].
Defined.

Lemma witness_forgetting :
  generate_object_from_model nat string
    (fun o w => (S w, Raise AttributeError)) Sample.host_import 2
    "room.obj" (Some (<["room.obj" := "old"]> (<["hall.obj" := "hall"]> ∅)))
    0%nat
  = Some (2%nat, Some (<["room.obj" := "room.obj"]> ∅), Ok "room.obj")
  /\ (<["room.obj" := "room.obj"]> (∅ : gmap string string))
       !! "hall.obj" = None.
Proof.
  destruct (attribute_error_in_duplicate_forgets_all
              (fun (o : string) (w : nat) => (S w, Raise AttributeError))
              Sample.host_import 0 "room.obj"
              (<["room.obj" := "old"]> (<["hall.obj" := "hall"]> ∅))
              0%nat 1%nat 2%nat "old" "room.obj")
    as [Hrun Hforgot]; [reflexivity|reflexivity|reflexivity|].
  split; [exact Hrun|]. by apply Hforgot.
Defined.

Lemma witness_first_material :
  exists mat,
    generate_material_from_image nat string Sample.host_display_name
      Sample.host_display_name Sample.host_load 3 "wall.png" true None
      0%nat
    = Some (1%nat,
            Some (<["wall.png" :=
                     (image_material string Sample.host_display_name
                        Sample.host_display_name "wall.png" "0" true
                        "wall.png",
                      image_material string Sample.host_display_name
                        Sample.host_display_name "wall.png" "1" false
                        "wall.png")]> ∅),
            Ok mat)
    /\ use_backface_culling mat = false.
Proof.
  destruct (first_request_builds_both_materials Sample.host_display_name
              Sample.host_display_name Sample.host_load 0 "wall.png" true
              None 0%nat 1%nat "wall.png")
    as (mat & Hrun & _ & Hculling & _); [discriminate|reflexivity|].
  by exists mat.
Defined.

Lemma witness_second_material :
  exists kept mat1 mat2,
    generate_material_from_image nat string Sample.host_display_name
      Sample.host_display_name Sample.host_load 3 "wall.png" true None
      0%nat
    = Some (1%nat, Some kept, Ok mat1)
    /\ generate_material_from_image nat string
         Sample.host_display_name Sample.host_display_name
         Sample.host_load 1 "wall.png" false (Some kept) 1%nat
       = Some (1%nat, Some kept, Ok mat2)
    /\ use_backface_culling mat2 = true
    /\ texture (texture_slot mat2) = texture (texture_slot mat1).
Proof.
  apply (second_request_loads_nothing Sample.host_display_name
           Sample.host_display_name Sample.host_load 0 0 "wall.png" true
           false None 0%nat 1%nat 1%nat "wall.png");
    [discriminate|reflexivity].
Defined.

Lemma witness_failed_load :
  exists kept,
    generate_material_from_image nat string Sample.host_display_name
      Sample.host_display_name Sample.host_load 2 "missing.png" true
      None 0%nat
    = Some (1%nat, Some kept, Raise ValueError)
    /\ kept !! "missing.png" = None.
Proof.
  apply (failed_load_keeps_nothing Sample.host_display_name
           Sample.host_display_name Sample.host_load 0 "missing.png" true
           None 0%nat 1%nat ValueError); [discriminate|reflexivity].
Defined.

End UtilityFacts.

(** ** More on the generated detection logic *)

Module DetectionFacts.

Import ObjectTrigger.

(** X13: [link_detection_bricks] raises [EBKAC] as long as the sensor
    or the controller has not been created; once [create_enabled_sensor]
    and [create_detection_controller] have run, in either order, it
    hands the controller [detect] of module [<name>.detect_event] to
    the host and returns it when the host's link returns, reports an
    [AttributeError] of the host as [EBKAC] as well, and lets any
    other exception through. *)
Theorem link_detection_bricks_needs_both_bricks
  (host_link : Controller -> Sensor -> result unit)
  (self_name : string) (b : Bricks) :
  (enable_sensor b = None \/ detect_controller b = None ->
   link_detection_bricks host_link b = Raise EBKAC)
  /\ create_detection_controller self_name (create_enabled_sensor self_name b)
     = create_enabled_sensor self_name
         (create_detection_controller self_name b)
  /\ exists c s,
       detect_controller
         (create_detection_controller self_name
            (create_enabled_sensor self_name b)) = Some c
       /\ enable_sensor
            (create_detection_controller self_name
               (create_enabled_sensor self_name b)) = Some s
       /\ module c = self_name +:+ ".detect_event"
       /\ property s = "enabled"
       /\ link_detection_bricks host_link
            (create_detection_controller self_name
               (create_enabled_sensor self_name b))
          = match host_link c s with
            | Ok _ => Ok c
            | Raise AttributeError => Raise EBKAC
            | Raise e => Raise e
            end.
Proof.
  split; [|split; [done|]].
  - intros Hmiss. unfold link_detection_bricks.
    destruct (detect_controller b) as [c|]; [|reflexivity].
    destruct Hmiss as [->|?]; [reflexivity|discriminate].
  - eexists. eexists. repeat split.
    unfold link_detection_bricks. simpl.
    match goal with |- context [host_link ?c ?s] =>
      destruct (host_link c s) as [[]|[]] end; reflexivity.
Qed.

(** The theorem before any brick exists, and with the sensor alone. *)
Lemma witness_bricks :
  link_detection_bricks (fun _ _ => Ok tt) no_bricks = Raise EBKAC
  /\ link_detection_bricks (fun _ _ => Ok tt)
       (create_enabled_sensor "trigger" no_bricks) = Raise EBKAC.
Proof.
  split.
  - apply (link_detection_bricks_needs_both_bricks (fun _ _ => Ok tt)
             "trigger" no_bricks). by left.
  - apply (link_detection_bricks_needs_both_bricks (fun _ _ => Ok tt)
             "trigger" (create_enabled_sensor "trigger" no_bricks)).
    by right.
Defined.

End DetectionFacts.

(** ** More on reading and writing links *)

Module LinkReadingFacts.

Import W3DLink.

Section Reading.

Context `{tools : XmlTools} `{codec : ActionCodec} `{conv : Builtins}
        `{names : NameValidator} `{blender : !Activators}.

Implicit Types (link M : Link).

(** X14: the actions that a link read from a document holds under a
    click count are the actions bound to that count by the document's
    entries, entry after entry and child after child, in document
    order; entries without a count are those of -1. *)
Theorem actions_are_filed_in_document_order
  (root link_node : Xml.Element) (link : Link) :
  Xml.find "Link" root = Some link_node ->
  fromXML root = Ok link ->
  forall k, dict_get k (actions link) = bound_to k link_node.
Proof.
  intros Hfind Hrun k. unfold fromXML in Hrun. rewrite Hfind in Hrun.
  repeat (apply bind_ok_inv in Hrun as (? & _ & Hrun)).
  apply W3DLinkFacts.read_all_actions_inv in Hrun as (_ & Hget).
  by rewrite Hget.
Qed.

(** X15: a link read from a document without [EnabledColor] or
    [SelectedColor] keeps the default colour, (0, 128, 255) or
    (255, 0, 0); no entry changes a colour or the two booleans; and
    the link has no activator until it is blended. *)
Theorem absent_colours_stay_default
  (root link_node : Xml.Element) (link : Link) :
  Xml.find "Link" root = Some link_node ->
  fromXML root = Ok link ->
  (Xml.find "EnabledColor" link_node = None ->
   enabled_color link = [0; 128; 255])
  /\ (Xml.find "SelectedColor" link_node = None ->
      selected_color link = [255; 0; 0])
  /\ (let* t := find_xml_text link_node "Enabled" in text2bool t)
     = Ok (enabled link)
  /\ (let* t := find_xml_text link_node "RemainEnabled" in text2bool t)
     = Ok (remain_enabled link)
  /\ activator link = None.
Proof.
  intros Hfind Hrun. unfold fromXML in Hrun. rewrite Hfind in Hrun.
  apply bind_ok_inv in Hrun as (t1 & Ht1 & Hrun).
  apply bind_ok_inv in Hrun as (b1 & Hb1 & Hrun).
  apply bind_ok_inv in Hrun as (t2 & Ht2 & Hrun).
  apply bind_ok_inv in Hrun as (b2 & Hb2 & Hrun).
  apply bind_ok_inv in Hrun as (c1 & Hc1 & Hrun).
  apply bind_ok_inv in Hrun as (c2 & Hc2 & Hrun).
  apply W3DLinkFacts.read_all_actions_inv in Hrun as ((He & Hr & Hec & Hsc & Hact) & _).
  simpl in He, Hr, Hec, Hsc, Hact.
  rewrite Ht1, Ht2. simpl. rewrite Hb1, Hb2, He, Hr, Hec, Hsc, Hact.
  repeat split; try done.
  - intros Hnone. rewrite Hnone in Hc1. by injection Hc1 as <-.
  - intros Hnone. rewrite Hnone in Hc2. by injection Hc2 as <-.
Qed.

(** X16: an entry whose [NumClicks] node has no [num_clicks]
    attribute, or one that is not an integer, makes the loop body
    raise [BadW3DXML], and a document holding such an entry is never
    read into a link. *)
Theorem bad_num_clicks_is_refused (node nc : Xml.Element) :
  num_clicks_node node = Some nc ->
  Xml.attrib nc !! "num_clicks" ≫= py_int = None ->
  (forall M, read_actions_node M node = Raise BadW3DXML)
  /\ (forall root link_node,
        Xml.find "Link" root = Some link_node ->
        In node (Xml.findall "Actions" link_node) ->
        is_ok (fromXML root) = false).
Proof.
  intros Hnc Hbad.
  assert (Hbody : forall M, read_actions_node M node = Raise BadW3DXML).
  { intros M. unfold read_actions_node, read_clicks.
    unfold num_clicks_node in Hnc.
    destruct (Xml.find "Clicks" node) as [cn|]; [|discriminate].
    simpl in Hnc. by rewrite Hnc, Hbad. }
  split; [exact Hbody|].
  intros root link_node Hfind Hin. unfold fromXML. rewrite Hfind.
  repeat match goal with
         | |- is_ok (Py.bind ?r _) = false =>
             destruct r; [cbn [Py.bind]|reflexivity]
         end.
  apply (W3DTimelineFacts.foldM_raises _ node); [exact Hin|].
  intros M. by rewrite Hbody.
Qed.

(** X17: a [KeyError] raised by [text2bool] on the [reset] attribute
    is taken for a missing attribute: the entry is read and [reset]
    stays; any other exception of [text2bool] ends the reading. *)
Theorem key_error_of_text2bool_is_swallowed
  (M : Link) (node nc : Xml.Element) (n : Z) (r : string) (e : exn) :
  num_clicks_node node = Some nc ->
  Xml.attrib nc !! "num_clicks" ≫= py_int = Some n ->
  Xml.attrib nc !! "reset" = Some r ->
  text2bool (Some r) = Raise e ->
  (e = KeyError -> read_clicks M node = Ok (n, M))
  /\ (e <> KeyError -> read_actions_node M node = Raise e).
Proof.
  intros Hnc Hn Hr He. unfold read_actions_node, read_clicks.
  unfold num_clicks_node in Hnc.
  destruct (Xml.find "Clicks" node) as [cn|]; [|discriminate].
  simpl in Hnc. rewrite Hnc, Hn, Hr, He. split.
  - by intros ->.
  - intros Hne. by destruct e.
Qed.

(** X18: [toXML] writes every negative click count as [Any], and the
    entry it writes is read back under -1 with [reset] as it was: a
    link's negative click counts all come back as the one key -1. *)
Theorem negative_count_is_read_back_as_any
  (link M : Link) (k : Z) (a : W3DAction) :
  k < 0 ->
  action_fromXML (action_toXML a) = Ok a ->
  String.eqb (Xml.tag (action_toXML a)) "Clicks" = false ->
  (In (k, a) (entries (actions link)) ->
   In (entry_node link (k, a)) (actions_nodes link))
  /\ exists M',
       read_actions_node M (entry_node link (k, a)) = Ok M'
       /\ actions M' = dict_append (-1) a (actions M)
       /\ reset M' = reset M.
Proof.
  intros Hk Ha Htag. split.
  - intros Hin. rewrite RoundTrip.actions_nodes_entries.
    by apply in_map.
  - exists (set_actions (dict_append (-1) a (actions M)) M).
    split; [|done]. unfold read_actions_node, read_clicks.
    rewrite RoundTrip.find_clicks_of_entry by done.
    rewrite RoundTrip.find_num_clicks_any by done. simpl Py.bind.
    unfold file_child. by rewrite Htag, Ha.
Qed.

Lemma entries_in_keys {V} (d : list (Z * list V)) (e : Z * V) :
  In e (entries d) -> In (fst e) (keys d).
Proof.
  unfold entries, keys. induction d as [|[k vs] d IH]; simpl; [done|].
  rewrite in_app_iff, in_map_iff.
  intros [(v & <- & _)|Hin]; [by left|right; by apply IH].
Qed.

(** The written entries do not depend on a [reset] that is no key. *)
Lemma actions_nodes_without_reset link :
  ~ In (reset link) (keys (actions link)) ->
  actions_nodes (set_reset (-1) link) = actions_nodes link.
Proof.
  intros Hnot. rewrite !RoundTrip.actions_nodes_entries.
  change (actions (set_reset (-1) link)) with (actions link).
  apply map_ext_in. intros [k a] Hin. apply entries_in_keys in Hin.
  unfold entry_node, clicks_node. cbn [fst snd] in *.
  change (reset (set_reset (-1) link)) with (-1).
  destruct (k <? 0) eqn:Hneg; [done|]. apply Z.ltb_ge in Hneg.
  assert (Hdef : (-1 =? k) = false) by (apply Z.eqb_neq; lia).
  assert (Hres : (reset link =? k) = false)
    by (apply Z.eqb_neq; congruence).
  by rewrite Hdef, Hres.
Qed.

(** X19: a link's [reset] is written only as a tag on the entries of
    that click count.  When the link binds no action to the count of
    its [reset], the written document is read back as the same link
    with [reset] at its default -1. *)
Theorem reset_without_bound_action_is_lost (link : Link) :
  tidy_dict (actions link) ->
  valid_color (enabled_color link) = true ->
  valid_color (selected_color link) = true ->
  activator link = None ->
  reads_back link ->
  ~ In (reset link) (keys (actions link)) ->
  exists doc,
    toXML link = Ok doc
    /\ fromXML doc = Ok (set_reset (-1) link).
Proof.
  intros Hdict Hec Hsc Hact Hlaws Hnot.
  destruct (RoundTrip.link_round_trip (set_reset (-1) link))
    as (doc & Hto & Hfrom).
  - repeat split; simpl; try done; try apply Hdict. by left.
  - exact Hlaws.
  - exists doc. split; [|exact Hfrom].
    rewrite <- Hto. unfold toXML.
    change (enabled_color (set_reset (-1) link)) with (enabled_color link).
    change (selected_color (set_reset (-1) link))
      with (selected_color link).
    change (enabled (set_reset (-1) link)) with (enabled link).
    change (remain_enabled (set_reset (-1) link))
      with (remain_enabled link).
    by rewrite actions_nodes_without_reset.
Qed.

(** X20: a link or a timeline that was read from a document has no
    activator, and a timeline that was read has a name: until it is
    blended, both of its steps raise [EBKAC]. *)
Theorem read_features_raise_EBKAC_before_blend :
  (forall root (link : Link),
     fromXML root = Ok link ->
     link_blender_logic link = Raise EBKAC
     /\ write_blender_logic link = Raise EBKAC)
  /\ (forall root (tl : W3DTimeline.Timeline),
        W3DTimeline.fromXML root = Ok tl ->
        W3DTimeline.link_blender_logic tl = Raise EBKAC
        /\ W3DTimeline.write_blender_logic tl = Raise EBKAC).
Proof.
  split.
  - intros root link Hrun.
    assert (Hact : activator link = None).
    { unfold fromXML in Hrun.
      destruct (Xml.find "Link" root) as [link_node|]; [|discriminate].
      repeat (apply bind_ok_inv in Hrun as (? & _ & Hrun)).
      apply W3DLinkFacts.read_all_actions_inv in Hrun as ((_ & _ & _ & _ & Hact) & _).
      exact Hact. }
    unfold link_blender_logic, write_blender_logic. by rewrite Hact.
  - intros root tl Hrun.
    destruct (W3DTimelineFacts.fromXML_inv _ _ Hrun)
      as (n0 & n & pairs & _ & _ & Hn & Hact & _).
    unfold W3DTimeline.link_blender_logic, W3DTimeline.write_blender_logic,
      W3DTimeline.get_name.
    by rewrite Hn, Hact.
Qed.

(** X21: a timeline that was read from a document can be written:
    [toXML] does not raise, and it writes one [TimedActions] node per
    timed action, each with a single child, so that a node read with
    several children is written as several nodes. *)
Theorem read_timeline_is_written_one_action_per_node
  (root : Xml.Element) (tl : W3DTimeline.Timeline) :
  W3DTimeline.fromXML root = Ok tl ->
  exists doc,
    W3DTimeline.toXML tl = Ok doc
    /\ Xml.attrib doc !! "name" = W3DTimeline.name tl
    /\ Xml.findall "TimedActions" doc
       = map W3DTimeline.timed_actions_node (W3DTimeline.actions tl)
    /\ length (Xml.findall "TimedActions" doc)
       = length (W3DTimeline.actions tl)
    /\ Forall (fun node => length (Xml.children node) = 1%nat)
              (Xml.findall "TimedActions" doc).
Proof.
  intros Hrun.
  destruct (W3DTimelineFacts.fromXML_inv _ _ Hrun)
    as (n0 & n & pairs & _ & _ & Hn & _).
  unfold W3DTimeline.toXML. rewrite Hn. eexists. split; [reflexivity|].
  assert (Hall : forall a,
    Xml.findall "TimedActions"
      (Xml.node "Timeline" a
         (map W3DTimeline.timed_actions_node (W3DTimeline.actions tl)))
    = map W3DTimeline.timed_actions_node (W3DTimeline.actions tl)).
  { intros a. unfold Xml.findall. simpl. apply W3DTimelineFacts.filter_all.
    apply Forall_map. by apply Forall_true. }
  rewrite Hall. split.
  - simpl. destruct (W3DTimeline.start_immediately tl).
    + by rewrite lookup_insert_ne, lookup_insert_eq.
    + by rewrite lookup_insert_eq.
  - split; [done|]. split; [by rewrite length_map|].
    apply Forall_map. by apply Forall_true.
Qed.

End Reading.

#[local] Existing Instances Sample.xml_tools Sample.action_codec
  Sample.builtins Sample.name_validator Sample.activators.

(** At the document that binds [ObjectChange] to five clicks and
    [SoundRef] to three. *)
Lemma witness_document_order :
  bound_to 5 (Sample.link_node Sample.entries_5_3) = ["ObjectChange"]
  /\ bound_to 3 (Sample.link_node Sample.entries_5_3) = ["SoundRef"]
  /\ bound_to (-1) (Sample.link_node Sample.entries_5_3) = [].
Proof.
  pose proof (actions_are_filed_in_document_order
                (codec := Sample.action_codec)
                (Sample.link_doc Sample.entries_5_3)
                (Sample.link_node Sample.entries_5_3) Sample.link_5_3
                eq_refl) as Hget.
  rewrite <- !Hget by (vm_compute; reflexivity).
  repeat split; reflexivity.
Defined.

(** At the same document, which gives no colour. *)
Lemma witness_default_colours :
  enabled_color Sample.link_5_3 = [0; 128; 255]
  /\ selected_color Sample.link_5_3 = [255; 0; 0]
  /\ activator Sample.link_5_3 = None.
Proof.
  destruct (absent_colours_stay_default
              (codec := Sample.action_codec)
              (Sample.link_doc Sample.entries_5_3)
              (Sample.link_node Sample.entries_5_3) Sample.link_5_3)
    as (Hec & Hsc & _ & _ & Hact).
  - reflexivity.
  - vm_compute. reflexivity.
  - split; [apply Hec; reflexivity|].
    split; [apply Hsc; reflexivity|exact Hact].
Defined.

(** At an entry whose count is the word [five]. *)
Lemma witness_bad_num_clicks :
  read_actions_node new_link
    (Sample.actions_entry "ObjectChange" [Sample.num_clicks "five" "true"])
  = Raise BadW3DXML
  /\ is_ok (fromXML
              (Sample.link_doc
                 [ Sample.actions_entry "SoundRef"
                     [Sample.num_clicks "3" "true"];
                   Sample.actions_entry "ObjectChange"
                     [Sample.num_clicks "five" "true"] ]))
     = false.
Proof.
  destruct (bad_num_clicks_is_refused
              (codec := Sample.action_codec)
              (Sample.actions_entry "ObjectChange"
                 [Sample.num_clicks "five" "true"])
              (Sample.num_clicks "five" "true"))
    as [Hbody Hdoc].
  - reflexivity.
  - vm_compute. reflexivity.
  - split; [apply Hbody|].
    apply (Hdoc _ (Sample.link_node
                     [ Sample.actions_entry "SoundRef"
                         [Sample.num_clicks "3" "true"];
                       Sample.actions_entry "ObjectChange"
                         [Sample.num_clicks "five" "true"] ])).
    + reflexivity.
    + vm_compute. right. left. reflexivity.
Defined.

(** With a [text2bool] that looks the text up and raises
    [KeyError] for the text [maybe]. *)
Lemma witness_key_error :
  read_clicks (H := Sample.keyed_tools) new_link
    (Sample.actions_entry "ObjectChange" [Sample.num_clicks "2" "maybe"])
  = Ok (2, new_link).
Proof.
  destruct (key_error_of_text2bool_is_swallowed
              (tools := Sample.keyed_tools) (codec := Sample.action_codec)
              new_link
              (Sample.actions_entry "ObjectChange"
                 [Sample.num_clicks "2" "maybe"])
              (Sample.num_clicks "2" "maybe") 2 "maybe" KeyError)
    as [Hkey _].
  - reflexivity.
  - vm_compute. reflexivity.
  - vm_compute. reflexivity.
  - reflexivity.
  - by apply Hkey.
Defined.

(** At the click count -7. *)
Lemma witness_negative_count :
  exists M',
    read_actions_node new_link
      (entry_node Sample.link_5_3 (-7, "ObjectChange")) = Ok M'
    /\ actions M' = [(-1, ["ObjectChange"])]
    /\ reset M' = -1.
Proof.
  destruct (negative_count_is_read_back_as_any
              (codec := Sample.action_codec)
              Sample.link_5_3 new_link (-7) "ObjectChange")
    as (_ & M' & Hrun & Hacts & Hreset).
  - lia.
  - reflexivity.
  - reflexivity.
  - by exists M'.
Defined.

Lemma sample_link_1_reads_back : reads_back Sample.link_1_reset_3.
Proof.
  split; [|split; [|split; [|split]]].
  - intros node t c b Hfind Htext. simpl. rewrite Hfind. simpl.
    rewrite Htext. by destruct b.
  - by intros [|].
  - intros s [= <-]. vm_compute. reflexivity.
  - intros s [= <-]. vm_compute. reflexivity.
  - repeat constructor; vm_compute; reflexivity.
Qed.

(** At a link that binds one action to one click and whose
    [reset] is 3. *)
Lemma witness_reset_lost :
  exists doc link',
    toXML Sample.link_1_reset_3 = Ok doc
    /\ fromXML doc = Ok link'
    /\ reset Sample.link_1_reset_3 = 3
    /\ reset link' = -1
    /\ actions link' = actions Sample.link_1_reset_3.
Proof.
  destruct (reset_without_bound_action_is_lost
              (codec := Sample.action_codec) Sample.link_1_reset_3)
    as (doc & Hto & Hfrom).
  - split; [|split].
    + apply NoDup_cons. split; [apply not_elem_of_nil|apply NoDup_nil_2].
    + by repeat constructor.
    + repeat constructor. simpl. lia.
  - reflexivity.
  - reflexivity.
  - reflexivity.
  - exact sample_link_1_reads_back.
  - simpl. intros [Heq|[]]. discriminate.
  - exists doc, (set_reset (-1) Sample.link_1_reset_3). done.
Defined.

(** At the documents read above. *)
Lemma witness_before_blend :
  link_blender_logic Sample.link_5_3 = Raise EBKAC
  /\ W3DTimeline.write_blender_logic Sample.timeline_sorted = Raise EBKAC.
Proof.
  destruct (read_features_raise_EBKAC_before_blend
              (codec := Sample.action_codec)) as [Hlink Htimeline].
  split.
  - apply (Hlink (Sample.link_doc Sample.entries_5_3)).
    vm_compute. reflexivity.
  - apply (Htimeline Sample.timeline_doc_2_1_2).
    vm_compute. reflexivity.
Defined.

(** At the timeline document with three timed actions. *)
Lemma witness_written_timeline :
  exists doc,
    W3DTimeline.toXML Sample.timeline_sorted = Ok doc
    /\ length (Xml.findall "TimedActions" doc) = 3%nat.
Proof.
  destruct (read_timeline_is_written_one_action_per_node
              (codec := Sample.action_codec)
              Sample.timeline_doc_2_1_2 Sample.timeline_sorted)
    as (doc & Hto & _ & _ & Hlen & _).
  - vm_compute. reflexivity.
  - by exists doc.
Defined.

End LinkReadingFacts.
